(* ===== verification/_CoqProject ===== *)
-Q . S2P
Prelude.v
XmlWriter.v
XmlReader.v
WorksheetState.v
CellRef.v
Dimension.v
Worksheet.v
Assembly.v
