(* ===== verification/Prelude.v ===== *)
(** * A verification development of XlsxWriter's worksheet serializer

    Repository: XlsxWriter (early 2013 snapshot).  One source file,
    [src/xlsxwriter/worksheet.py], class [Worksheet]: a constructor that
    sets every sheet-level attribute, one public setter [select], and a
    serialization pass [_assemble_xml_file] that writes the worksheet XML
    part through the tag-writing methods inherited from [xmlwriter.XMLwriter]
    (a module that is not under [src/]).

    ** The program and how its parts interact

    [_assemble_xml_file] writes the declaration, opens the root, calls the
    section writers in the fixed order dimension, sheetViews,
    sheetFormatPr, sheetData, pageMargins, and closes the root.  Every
    writer builds an attribute list and calls the emitter
    ([_xml_start_tag], [_xml_empty_tag], [_xml_end_tag]), which appends to
    the file handle [self.fh].  Besides [self.fh], the pass changes one
    attribute: [_write_worksheet] sets [self.excel_version = 2007] before it
    tests for 2010, so the extended-schema branch never runs.

    ** Files, in dependency order

    - [Prelude.v] (this file): the [xlsx_scope] notation [f >>> g] for a
      Python method body [self.f(); self.g()] on a state transformer; the
      quote and newline characters; the hint databases [xlsx] and
      [xlsx_rw]; the tactics [str_norm], [xlsx_compute], [zdiv_lia]; the
      [result] type of operations that raise, with stdpp's monad
      instances; lemmas on [String.string] append.
    - [XmlWriter.v]: the emitter, modelled from the spec (section 6).
      [xml_event] is one emitter call, [render_event] its text,
      [escape_attributes] the escaping of attribute values, and
      [_escape_attributes] the same escaping as a chain of Python
      [str.replace] calls ([py_replace]).  The class
      [XmlWriter] is the capability set the worksheet calls; its laws
      [XmlWriterLaws] say each call appends the text of its construct.
      Instances: the event log [list xml_event] and the text buffer
      [string].  [well_formed_doc] is a stack machine for one-root
      documents and [children] lists the root's direct children.
    - [XmlReader.v]: a reader for the XML the emitter writes (what a
      consumer of the file does), and the round trip: the text of events
      with non-empty tag names free of space, [>], [/], [=] and [?] reads
      back as the same events, attribute values unescaped.
    - [WorksheetState.v]: [Worksheet.__init__] (lines 23-177) as one record
      per contiguous block of settings ([SheetInfo], [Dimensions],
      [SheetView], [PageSetup], [PrintOptions], [HeaderFooter], [Margins],
      [PrintLayout], [Protection], [RowColInfo], [Display], [Outline],
      [SheetFormat], [NamesTables], [Features]) inside [Worksheet B], whose
      field [fh : B] is the inherited file handle.  Every attribute the
      constructor assigns is a field: list and dict attributes hold Python
      values [pyval] (a dict as an association list in insertion order).
      [Worksheet_init] is the constructor; [select] (lines 181-200).
    - [CellRef.v]: A1 notation ([xl_col_to_name], with Equations for the
      loop by well-founded recursion, and [col_name_while], the same
      [while col_num:] loop run with fuel; [xl_rowcol_to_cell]) and its parsers,
      modelled from the spec (XlsxWriter's [utility] module is not under
      [src/]); round trips.
    - [Dimension.v]: the spec's Dimension Calculator (section 4.2) over the
      source's [Dimensions] record: [check_dimensions] (OutOfRange past
      [xls_rowmax] / [xls_colmax]), [observe_cells], [dimension_ref].
    - [Worksheet.v]: the section writers and [_assemble_xml_file] (lines
      208-330), generic in the emitter; the document the spec requires
      ([worksheet_document], [worksheet_xml]); the step relation [ws_step]
      of the public operations and its reachable states; the pass on a
      file handle whose writes can fail.
    - [Assembly.v]: the spec's design of the assembler as a schema-ordered
      table of sections (inclusion predicate, writer); the section
      contract (one element, plain names, nothing else changed); the
      source's assembler as the table of its five rows.

    ** What the theorems show

    - Refinement: for every state, the assembler appends exactly the
      spec's document to the event log ([assemble_writes_document]) and,
      on any lawful emitter, exactly its text ([assemble_writes_text]),
      which a reader reads back as exactly that document
      ([assemble_text_reads_back]).  On every reachable state the
      dimension written agrees with the spec's calculator.
    - Design: any table of sections that keep the contract yields a
      well-formed document with the included sections as the root's
      children, in table order; the source's assembler is such a table.
    - Termination: [xl_col_to_name]'s [while] loop stops after exactly one
      more test of its condition than the name has letters, four at most
      within the sheet's columns.
    - Errors: on a file handle that can fail, an earlier error propagates
      with nothing written; otherwise the pass writes the whole document,
      or the first emitter call that does not fit raises [WriteFailed],
      no later call writes, and the file keeps exactly the text of the
      calls before it, a proper prefix the caller must discard.
    - Structure: the document is well formed with the children in the
      schema's order, each once; pageMargins has its six attributes in
      order.
    - Namespace gating: the attribute builder adds the extension
      namespaces exactly for version 2010, yet the root never carries them
      because of the reset (a divergence from the spec).
    - State: [select] makes a sheet selected and not hidden and changes
      nothing else; the pass changes only [fh] and [excel_version]; the
      states reachable by any sequence of [select()] calls and passes are
      exactly the constructor's state, selected or not, with some number
      of whole documents in the file ([reachable_states]: rule induction
      over [rtc ws_step] through [rtc_invariant] one way, induction on the
      number of passes the other).
    - Dimension Calculator: the boundary check at 1048575 / 16383, the
      error path, the tightest-rectangle invariant, the round trip of the
      reference string; column names have one to
      three letters within the limits.

    ** Bounds and recursion

    Python integers are [Z] (unbounded, as in Python); the sheet limits are
    the constructor's values.  The only non-structural loop,
    [xl_col_to_name]'s, is defined by well-founded recursion on the column
    number (Equations), so it is total: no fuel is involved.  The reader
    of [XmlReader.v], which is not code of the repository but the consumer
    the round trip is stated against, scans with fuel: [read_xml] gives
    [read_events] the length of the text plus one, and [read_tag_rest]
    gives [read_attrs] the length of the rest of the tag plus one; every
    event and every attribute renders to at least one character, so this
    fuel never runs out on a rendered text ([read_render] is proved for
    that fuel, not under a hypothesis that the fuel suffices).  The
    [while] loop [col_name_while] takes its fuel as an argument, since the
    theorem about it is its termination: it returns [Some] exactly when
    the fuel exceeds the number of letters of the name, which is at most
    three for the sheet's 16384 columns.  Its division is [Z.div], which is
    Python's integer division on the non-negative numbers the theorem
    covers (a column index is at least 0, so [col_num] is at least 1).

    ** Not modelled

    The element types of the constructor's containers, which this source
    never fixes (they hold any [pyval]).  Concurrency (spec section 5): the
    source shares nothing between worksheets, and with each sheet its own
    value, isolation of separate emitters would hold by construction and
    say nothing about the code, so it is not modelled.  Cell and formula
    writing, shared strings, styles, workbook assembly and zip
    packaging (out of scope per the spec, absent from the source); the
    emitter's character-level file I/O. *)

From stdpp Require Export base list strings sets relations.
From Stdlib Require Export ZArith Lia Ascii.

Declare Scope xlsx_scope.
Delimit Scope xlsx_scope with xlsx.

(** Sequencing of two state transformers: [f >>> g] runs [f], then [g].
    A Python method body [self.f(); self.g()] is [f >>> g]. *)
Notation "f >>> g" := (fun s => g (f s))
  (at level 40, left associativity) : xlsx_scope.

(** The double-quote character as a one-character string. *)
Definition dq : string := String (ascii_of_nat 34) EmptyString.

(** The newline character as a one-character string. *)
Definition nl : string := String (ascii_of_nat 10) EmptyString.

(** stdpp declares [String.append] [simpl never]; the rendering proofs
    compute appends of literals, so [simpl] may unfold it again. *)
Global Arguments String.append : simpl nomatch.

Create HintDb xlsx discriminated.
Create Rewrite HintDb xlsx_rw.

(** ** String append *)

Lemma str_app_assoc (s1 s2 s3 : string) :
  (s1 +:+ s2) +:+ s3 = s1 +:+ s2 +:+ s3.
Proof. induction s1 as [|c s1 IH]; simpl; congruence. Qed.

Lemma str_app_nil_r (s : string) : s +:+ "" = s.
Proof. induction s as [|c s IH]; simpl; congruence. Qed.

Lemma str_app_nil_l (s : string) : "" +:+ s = s.
Proof. done. Qed.

Lemma str_length_app (s1 s2 : string) :
  String.length (s1 +:+ s2) = String.length s1 + String.length s2.
Proof. induction s1 as [|c s1 IH]; simpl; congruence. Qed.

#[export] Hint Rewrite str_app_assoc str_app_nil_r str_app_nil_l : xlsx_rw.

(** Every character of a string satisfies [p]. *)
Fixpoint str_forallb (p : ascii -> bool) (s : string) : bool :=
  match s with
  | EmptyString => true
  | String c s' => p c && str_forallb p s'
  end.

Lemma str_forallb_app p (s1 s2 : string) :
  str_forallb p (s1 +:+ s2) = str_forallb p s1 && str_forallb p s2.
Proof. induction s1 as [|c s1 IH]; simpl; [done|]. by rewrite IH, andb_assoc. Qed.

(** ** Tactics *)

(** Normalise string appends to the right-nested form. *)
Ltac str_norm := autorewrite with xlsx_rw in *.

(** Close a goal by unfolding to concrete values and computing. *)
Ltac xlsx_compute := vm_compute; reflexivity.

(** Linear arithmetic with [/] and [mod] by constants: name the quotients
    and remainders first. *)
Ltac zdiv_lia := Z.to_euclidean_division_equations; lia.

(** ** Results of operations that can raise *)

(** [Ok a], or [Err e] for a raised exception [e]. *)
Inductive result (E A : Type) : Type :=
| Ok (a : A)
| Err (e : E).
Arguments Ok {E A}.
Arguments Err {E A}.

#[export] Instance result_ret {E} : MRet (result E) := fun _ a => Ok a.
#[export] Instance result_bind {E} : MBind (result E) :=
  fun _ _ f r => match r with Ok a => f a | Err e => Err e end.

Lemma result_bind_Ok {E A B} (a : A) (f : A -> result E B) : (Ok a ≫= f) = f a.
Proof. done. Qed.
Lemma result_bind_Err {E A B} (e : E) (f : A -> result E B) : (Err e ≫= f) = Err e.
Proof. done. Qed.
#[export] Hint Rewrite @result_bind_Ok @result_bind_Err : xlsx_rw.

(** ** Runs of a step relation *)

(** A property that every step preserves holds along every run that
    starts in a state that has it. *)
Lemma rtc_invariant {A} (R : relation A) (P : A -> Prop) (x y : A) :
  (forall a b, R a b -> P a -> P b) -> rtc R x y -> P x -> P y.
Proof. intros Hstep Hr. induction Hr as [|a b c Hab _ IH]; eauto. Qed.
