(* ===== verification/XmlWriter.v ===== *)
(** * The markup emitter ([xmlwriter.XMLwriter])

    The class [Worksheet] of [src/xlsxwriter/worksheet.py] inherits from
    [xmlwriter.XMLwriter] and calls four of its methods:
    [_xml_declaration], [_xml_start_tag], [_xml_end_tag] and
    [_xml_empty_tag].  That module is not under [src/]; it is modelled here
    from the spec (section 6, "Markup Emitter capability consumed"): every
    call appends one XML construct to the output, attributes in the order
    given, with [&], [<], [>] and the double quote escaped in attribute
    values.

    The file holds
    - [xml_event], one value per emitter call, and [render_event], the text
      it appends;
    - [escape_attributes] and its inverse [unescape_attributes], and
      [_escape_attributes], the same escaping as four Python [str.replace]
      calls ([py_replace]), proved equal to it
      ([escape_replace_chain_equiv]: replacing [&] first is what keeps the
      entities of the later steps from being escaped twice);
    - the class [XmlWriter] of buffers the four calls can write into, its
      laws [XmlWriterLaws] (each call appends the rendering of its event),
      and two instances: the event log [list xml_event] and the text buffer
      [string];
    - [elems_ok] / [well_formed_doc], a stack machine that accepts a
      well-formed single-root document, and [children], the names of the
      root's direct children;
    - [bounded_fh], a file handle whose writes can fail, and its instance
      [bounded_writer]: a write that does not fit raises [WriteFailed],
      which carries the handle with what the earlier writes put in the
      file ([fh_writes] runs a sequence of calls). *)

From S2P Require Import Prelude.

(** ** Events and their text *)

Definition attribute : Type := string * string.

(** One emitter call. *)
Inductive xml_event : Type :=
| XmlDecl
| StartTag (tag : string) (attrs : list attribute)
| EndTag (tag : string)
| EmptyTag (tag : string) (attrs : list attribute).

#[export] Instance xml_event_eq_dec : EqDecision xml_event.
Proof. solve_decision. Defined.

(** Attribute-value escaping, one character at a time. *)
Definition escape_char (c : ascii) : string :=
  if decide (c = "&"%char) then "&amp;"
  else if decide (c = ascii_of_nat 34) then "&quot;"
  else if decide (c = "<"%char) then "&lt;"
  else if decide (c = ">"%char) then "&gt;"
  else String c EmptyString.

Fixpoint escape_attributes (s : string) : string :=
  match s with
  | EmptyString => EmptyString
  | String c s' => escape_char c +:+ escape_attributes s'
  end.

(** Python's [s.replace(old, new)] for a one-character [old]: every
    occurrence, left to right, replaced in one scan of [s]. *)
Fixpoint py_replace (old : ascii) (new : string) (s : string) : string :=
  match s with
  | EmptyString => EmptyString
  | String c s' =>
      (if decide (c = old) then new else String c EmptyString) +:+ py_replace old new s'
  end.

(** [XMLwriter._escape_attributes] written as whole-string replacements,
    [&] first so that the entities the later steps insert are not
    escaped again. *)
Definition _escape_attributes (attribute : string) : string :=
  let attribute := py_replace "&" "&amp;" attribute in
  let attribute := py_replace (ascii_of_nat 34) "&quot;" attribute in
  let attribute := py_replace "<" "&lt;" attribute in
  py_replace ">" "&gt;" attribute.

(** The inverse: what a consumer reads back from an escaped value. *)
Fixpoint unescape_attributes (s : string) : string :=
  match s with
  | String "&" (String "a" (String "m" (String "p" (String ";" r)))) =>
      String "&" (unescape_attributes r)
  | String "&" (String "q" (String "u" (String "o" (String "t" (String ";" r))))) =>
      String (ascii_of_nat 34) (unescape_attributes r)
  | String "&" (String "l" (String "t" (String ";" r))) =>
      String "<" (unescape_attributes r)
  | String "&" (String "g" (String "t" (String ";" r))) =>
      String ">" (unescape_attributes r)
  | String c r => String c (unescape_attributes r)
  | EmptyString => EmptyString
  end.

(** [ key="value"] for each attribute, in list order. *)
Fixpoint render_attributes (attrs : list attribute) : string :=
  match attrs with
  | [] => ""
  | (k, v) :: rest =>
      " " +:+ k +:+ "=" +:+ dq +:+ escape_attributes v +:+ dq
          +:+ render_attributes rest
  end.

Definition xml_declaration_text : string :=
  "<?xml version=" +:+ dq +:+ "1.0" +:+ dq +:+ " encoding=" +:+ dq
    +:+ "UTF-8" +:+ dq +:+ " standalone=" +:+ dq +:+ "yes" +:+ dq
    +:+ "?>" +:+ nl.

Definition render_event (e : xml_event) : string :=
  match e with
  | XmlDecl => xml_declaration_text
  | StartTag t a => "<" +:+ t +:+ render_attributes a +:+ ">"
  | EndTag t => "</" +:+ t +:+ ">"
  | EmptyTag t a => "<" +:+ t +:+ render_attributes a +:+ "/>"
  end.

Fixpoint render (l : list xml_event) : string :=
  match l with
  | [] => ""
  | e :: l' => render_event e +:+ render l'
  end.

(** ** The emitter interface *)

(** A buffer the four [XMLwriter] calls write into, with the text it
    holds.  The Python methods take [attributes=[]] by default; here the
    list is always passed. *)
Class XmlWriter (B : Type) := {
  _xml_declaration : B -> B;
  _xml_start_tag : string -> list attribute -> B -> B;
  _xml_end_tag : string -> B -> B;
  _xml_empty_tag : string -> list attribute -> B -> B;
  xml_text : B -> string
}.

(** The contract of the spec: each call appends the text of its construct,
    and nothing else. *)
Class XmlWriterLaws (B : Type) `{XmlWriter B} := {
  xml_declaration_law b :
    xml_text (_xml_declaration b) = xml_text b +:+ render_event XmlDecl;
  xml_start_tag_law t a b :
    xml_text (_xml_start_tag t a b) = xml_text b +:+ render_event (StartTag t a);
  xml_end_tag_law t b :
    xml_text (_xml_end_tag t b) = xml_text b +:+ render_event (EndTag t);
  xml_empty_tag_law t a b :
    xml_text (_xml_empty_tag t a b) = xml_text b +:+ render_event (EmptyTag t a)
}.

(** The event log: every call is recorded, in order. *)
#[export] Instance event_log_writer : XmlWriter (list xml_event) := {
  _xml_declaration b := b ++ [XmlDecl];
  _xml_start_tag t a b := b ++ [StartTag t a];
  _xml_end_tag t b := b ++ [EndTag t];
  _xml_empty_tag t a b := b ++ [EmptyTag t a];
  xml_text := render
}.

(** The text buffer: the file handle [self.fh] as the string written. *)
#[export] Instance text_writer : XmlWriter string := {
  _xml_declaration b := b +:+ render_event XmlDecl;
  _xml_start_tag t a b := b +:+ render_event (StartTag t a);
  _xml_end_tag t b := b +:+ render_event (EndTag t);
  _xml_empty_tag t a b := b +:+ render_event (EmptyTag t a);
  xml_text b := b
}.

(** A file handle that can fail: [fh_text] is what the file holds, and
    [fh_room] characters fit before a write raises.  A write either fits
    whole or raises without writing. *)
Record bounded_fh := mkBoundedFh { fh_text : string; fh_room : nat }.

(** The I/O error a failing write raises.  It carries the handle as the
    failure left it: the file keeps what the earlier writes put there,
    and the caller is the one that must discard it (spec section 7). *)
Inductive io_error : Type := WriteFailed (kept : bounded_fh).

(** [Err] is the raised error propagating out of the pass: the calls after
    it write nothing. *)
Definition fh_write (t : string) (b : result io_error bounded_fh) : result io_error bounded_fh :=
  f ← b;
  if decide (String.length t <= fh_room f)
  then Ok {| fh_text := fh_text f +:+ t; fh_room := fh_room f - String.length t |}
  else Err (WriteFailed f).

#[export] Instance bounded_writer : XmlWriter (result io_error bounded_fh) := {
  _xml_declaration := fh_write (render_event XmlDecl);
  _xml_start_tag t a := fh_write (render_event (StartTag t a));
  _xml_end_tag t := fh_write (render_event (EndTag t));
  _xml_empty_tag t a := fh_write (render_event (EmptyTag t a));
  xml_text b := match b with Ok f | Err (WriteFailed f) => fh_text f end
}.

(** ** Well-formed documents *)

(** Run the element stack over a sequence of events.  An event when the
    stack is empty (after the root has closed), a mismatched end tag, or a
    declaration other than the first event is rejected. *)
Fixpoint elems_ok (st : list string) (l : list xml_event) : option (list string) :=
  match l with
  | [] => Some st
  | e :: l' =>
      match st with
      | [] => None
      | top :: st' =>
          match e with
          | XmlDecl => None
          | StartTag t _ => elems_ok (t :: st) l'
          | EndTag t => if decide (t = top) then elems_ok st' l' else None
          | EmptyTag _ _ => elems_ok st l'
          end
      end
  end.

(** A declaration, then one root element that encloses everything else. *)
Definition well_formed_doc (l : list xml_event) : bool :=
  match l with
  | XmlDecl :: StartTag r _ :: l' =>
      match elems_ok [r] l' with Some [] => true | _ => false end
  | _ => false
  end.

(** The root element's name. *)
Definition root_name (l : list xml_event) : option string :=
  match l with
  | XmlDecl :: StartTag r _ :: _ => Some r
  | _ => None
  end.

(** Names of the elements opened at depth [d] = 1, i.e. the direct
    children of the root, in document order. *)
Fixpoint children_at (d : nat) (l : list xml_event) : list string :=
  match l with
  | [] => []
  | XmlDecl :: l' => children_at d l'
  | StartTag t _ :: l' => (if decide (d = 1) then [t] else []) ++ children_at (S d) l'
  | EmptyTag t _ :: l' => (if decide (d = 1) then [t] else []) ++ children_at d l'
  | EndTag _ :: l' => children_at (pred d) l'
  end.

Definition children (l : list xml_event) : list string := children_at 0 l.

(** Attributes of the first start or empty tag named [t]. *)
Fixpoint attributes_of (t : string) (l : list xml_event) : option (list attribute) :=
  match l with
  | [] => None
  | StartTag t' a :: l' | EmptyTag t' a :: l' =>
      if decide (t = t') then Some a else attributes_of t l'
  | _ :: l' => attributes_of t l'
  end.

(** ** Rendering *)

Lemma render_app (l1 l2 : list xml_event) :
  render (l1 ++ l2) = render l1 +:+ render l2.
Proof.
  induction l1 as [|e l1 IH]; simpl; [done|]. by rewrite IH, str_app_assoc.
Qed.
#[export] Hint Rewrite render_app : xlsx_rw.

Lemma render_singleton (e : xml_event) : render [e] = render_event e.
Proof. simpl. apply str_app_nil_r. Qed.
#[export] Hint Rewrite render_singleton : xlsx_rw.

#[export] Instance event_log_writer_laws : XmlWriterLaws (list xml_event).
Proof. split; intros; simpl; by rewrite render_app, render_singleton. Qed.

#[export] Instance text_writer_laws : XmlWriterLaws string.
Proof. by split. Qed.

(** ** Escaping *)

(** The characters a raw attribute value may not contain. *)
Definition attr_special (c : ascii) : bool :=
  bool_decide (c = "<"%char) || bool_decide (c = ">"%char)
  || bool_decide (c = ascii_of_nat 34).

Lemma escape_attributes_app (s1 s2 : string) :
  escape_attributes (s1 +:+ s2) = escape_attributes s1 +:+ escape_attributes s2.
Proof.
  induction s1 as [|c s1 IH]; simpl; [done|]. by rewrite IH, str_app_assoc.
Qed.

Lemma py_replace_app (old : ascii) (new s1 s2 : string) :
  py_replace old new (s1 +:+ s2) = py_replace old new s1 +:+ py_replace old new s2.
Proof.
  induction s1 as [|c s1 IH]; simpl; [done|]. by rewrite IH, str_app_assoc.
Qed.

(** The replacement chain works character by character. *)
Lemma _escape_attributes_cons (c : ascii) (s : string) :
  _escape_attributes (String c s) = _escape_attributes (String c "") +:+ _escape_attributes s.
Proof.
  unfold _escape_attributes. change (String c s) with (String c "" +:+ s).
  by rewrite !py_replace_app.
Qed.

Lemma _escape_attributes_char (c : ascii) : _escape_attributes (String c "") = escape_char c.
Proof.
  unfold _escape_attributes, escape_char. simpl.
  repeat (case_decide; subst; simpl); done.
Qed.

(** A character other than [&] is read back as itself. *)
Lemma unescape_attributes_other (c : ascii) (r : string) :
  c <> "&"%char ->
  unescape_attributes (String c r) = String c (unescape_attributes r).
Proof.
  intros Hc. destruct c as [[] [] [] [] [] [] [] []]; try reflexivity.
  by contradict Hc.
Qed.

(** ** Well-formedness, compositionally *)

Lemma elems_ok_app (st : list string) (l1 l2 : list xml_event) :
  elems_ok st (l1 ++ l2) = elems_ok st l1 ≫= (fun st' => elems_ok st' l2).
Proof.
  revert st. induction l1 as [|e l1 IH]; intros st; simpl; [done|].
  destruct st as [|top st]; [done|].
  destruct e; [done| apply IH | case_decide; [apply IH|done] | apply IH].
Qed.

(** The depth reached after a sequence of events. *)
Fixpoint depth_after (d : nat) (l : list xml_event) : nat :=
  match l with
  | [] => d
  | StartTag _ _ :: l' => depth_after (S d) l'
  | EndTag _ :: l' => depth_after (pred d) l'
  | _ :: l' => depth_after d l'
  end.

Lemma children_at_app (d : nat) (l1 l2 : list xml_event) :
  children_at d (l1 ++ l2) = children_at d l1 ++ children_at (depth_after d l1) l2.
Proof.
  revert d. induction l1 as [|e l1 IH]; intros d; simpl; [done|].
  destruct e; rewrite ?IH; [done| by rewrite app_assoc | done | by rewrite app_assoc].
Qed.

(** ** Theorems of the emitter *)

(** Escaped attribute values contain no [<], [>] or double quote, so an
    attribute value can never close its quotes or open a tag. *)
Lemma escape_attributes_safe (s : string) :
  str_forallb (fun c => negb (attr_special c)) (escape_attributes s) = true.
Proof.
  induction s as [|c s IH]; simpl; [done|].
  rewrite str_forallb_app, IH, andb_true_r. unfold escape_char.
  repeat case_decide; subst; try done.
  unfold attr_special. simpl. by repeat case_bool_decide.
Qed.

(** Unescaping an escaped value gives the value back: escaping loses no
    information. *)
Lemma unescape_escape_attributes (s : string) :
  unescape_attributes (escape_attributes s) = s.
Proof.
  induction s as [|c s IH]; [done|]. simpl escape_attributes. unfold escape_char.
  repeat case_decide; subst; [simpl; by rewrite IH ..|].
  change (String c "" +:+ ?x) with (String c x).
  rewrite unescape_attributes_other by done. by rewrite IH.
Qed.

(** Equivalence of the two escapes: the chain of whole-string
    replacements [&], double quote, [<], [>] (in that order) gives the same
    text as escaping each character on its own, for every attribute value. *)
Lemma escape_replace_chain_equiv (s : string) :
  _escape_attributes s = escape_attributes s.
Proof.
  induction s as [|c s IH]; [done|].
  by rewrite _escape_attributes_cons, _escape_attributes_char, IH.
Qed.

(** ** Failing writes *)

(** The writes of a sequence of emitter calls, one per event, in order. *)
Definition fh_writes (evs : list xml_event) (b : result io_error bounded_fh)
    : result io_error bounded_fh :=
  foldl (fun b e => fh_write (render_event e) b) b evs.

Lemma fh_writes_Err (evs : list xml_event) (e : io_error) : fh_writes evs (Err e) = Err e.
Proof. induction evs as [|ev evs IH]; [done|]. exact IH. Qed.

Lemma fh_writes_cons (ev : xml_event) (evs : list xml_event) (b : result io_error bounded_fh) :
  fh_writes (ev :: evs) b = fh_writes evs (fh_write (render_event ev) b).
Proof. done. Qed.

Lemma fh_write_Ok (t : string) (f : bounded_fh) :
  fh_write t (Ok f)
  = if decide (String.length t <= fh_room f)%nat
    then Ok (mkBoundedFh (fh_text f +:+ t) (fh_room f - String.length t))
    else Err (WriteFailed f).
Proof. done. Qed.

(** A sequence of writes on a handle: with room for all of it, the whole
    text is written; otherwise the first call that does not fit raises,
    and the file keeps exactly the text of the calls before it. *)
Lemma fh_writes_Ok (evs : list xml_event) (f : bounded_fh) :
  ((String.length (render evs) <= fh_room f)%nat ->
   fh_writes evs (Ok f)
   = Ok (mkBoundedFh (fh_text f +:+ render evs) (fh_room f - String.length (render evs))))
  /\ ((fh_room f < String.length (render evs))%nat ->
   exists i, (i < length evs)%nat
     /\ (String.length (render (take i evs)) <= fh_room f < String.length (render (take (S i) evs)))%nat
     /\ fh_writes evs (Ok f)
        = Err (WriteFailed (mkBoundedFh (fh_text f +:+ render (take i evs))
                                        (fh_room f - String.length (render (take i evs)))))).
Proof.
  revert f. induction evs as [|ev evs IH]; intros [text room].
  - split; [intros _; cbn; by rewrite str_app_nil_r, Nat.sub_0_r | cbn; lia].
  - rewrite fh_writes_cons, fh_write_Ok. cbn [render fh_text fh_room]. rewrite str_length_app.
    destruct (decide (String.length (render_event ev) <= room)%nat) as [Hfit|Hfit].
    + destruct (IH (mkBoundedFh (text +:+ render_event ev)
                                (room - String.length (render_event ev)))) as [IH1 IH2].
      cbn [fh_text fh_room] in IH1, IH2. split.
      * intros Hall. rewrite IH1 by lia. by rewrite str_app_assoc, Nat.sub_add_distr.
      * intros Hover. destruct (IH2 ltac:(lia)) as (i & Hi & Hlen & ->).
        exists (S i). cbn [take render length]. rewrite !str_length_app.
        split_and!; [lia | lia | lia |]. by rewrite str_app_assoc, Nat.sub_add_distr.
    + split; [lia|]. intros _. exists 0%nat. cbn [take render length].
      rewrite str_length_app. cbn [String.length].
      split_and!; [lia | lia | lia |]. by rewrite fh_writes_Err, str_app_nil_r, Nat.sub_0_r.
Qed.

(** ** Balanced event sequences *)

(** A sequence of complete elements: self-closing tags, or a start tag,
    balanced content and the matching end tag. *)
Inductive balanced : list xml_event -> Prop :=
| bal_nil : balanced []
| bal_empty t a l : balanced l -> balanced (EmptyTag t a :: l)
| bal_elem t a inner l :
    balanced inner -> balanced l -> balanced (StartTag t a :: inner ++ EndTag t :: l).

#[export] Hint Constructors balanced : xlsx.

Lemma balanced_app (l1 l2 : list xml_event) :
  balanced l1 -> balanced l2 -> balanced (l1 ++ l2).
Proof.
  intros H1 H2. induction H1 as [|t a l _ IH|t a inner l Hi _ _ IH]; simpl.
  - done.
  - constructor. exact IH.
  - rewrite <-app_assoc. simpl. by constructor.
Qed.

Lemma depth_after_app (d : nat) (l1 l2 : list xml_event) :
  depth_after d (l1 ++ l2) = depth_after (depth_after d l1) l2.
Proof.
  revert d. induction l1 as [|e l1 IH]; intros d; simpl; [done|]. destruct e; apply IH.
Qed.

(** Balanced content leaves the element stack as it found it. *)
Lemma balanced_elems_ok (l : list xml_event) :
  balanced l -> forall top st l', elems_ok (top :: st) (l ++ l') = elems_ok (top :: st) l'.
Proof.
  induction 1 as [|t a l _ IH|t a inner l _ IHi _ IH]; intros top st l'; simpl; [done|apply IH|].
  rewrite <-app_assoc, IHi. simpl. case_decide; [apply IH | done].
Qed.

(** ... and the depth. *)
Lemma balanced_depth (l : list xml_event) : balanced l -> forall d, depth_after d l = d.
Proof.
  induction 1 as [|t a l _ IH|t a inner l _ IHi _ IH]; intros d; simpl; [done|apply IH|].
  rewrite depth_after_app, IHi. simpl. apply IH.
Qed.

(** Below the root's children, balanced content names no child. *)
Lemma balanced_children_deep (l : list xml_event) :
  balanced l -> forall d, 2 <= d -> children_at d l = [].
Proof.
  induction 1 as [|t a l _ IH|t a inner l Hi IHi _ IH]; intros d Hd; simpl.
  - done.
  - case_decide; [lia|]. by apply IH.
  - case_decide; [lia|]. rewrite children_at_app, IHi by lia. simpl.
    rewrite balanced_depth by done. by apply IH.
Qed.

(** One complete element named [n]. *)
Definition single_element (n : string) (evs : list xml_event) : Prop :=
  (exists a, evs = [EmptyTag n a])
  \/ (exists a inner, balanced inner /\ evs = StartTag n a :: inner ++ [EndTag n]).

Lemma single_element_balanced (n : string) (evs : list xml_event) :
  single_element n evs -> balanced evs /\ children_at 1 evs = [n].
Proof.
  intros [[a ->]|(a & inner & Hi & ->)]; simpl.
  - split; [by repeat constructor | done].
  - split; [by constructor; [|constructor] |].
    rewrite children_at_app, balanced_children_deep, balanced_depth by (done || lia).
    done.
Qed.

(** A declaration, a root, balanced content and the root's end tag form a
    well-formed document whose root children are the content's top-level
    elements. *)
Lemma document_of_balanced (r : string) (a : list attribute) (body : list xml_event) :
  balanced body ->
  well_formed_doc (XmlDecl :: StartTag r a :: body ++ [EndTag r]) = true
  /\ children (XmlDecl :: StartTag r a :: body ++ [EndTag r]) = children_at 1 body.
Proof.
  intros Hb. split.
  - unfold well_formed_doc. rewrite (balanced_elems_ok _ Hb r []). simpl. by case_decide.
  - unfold children. simpl. rewrite children_at_app, balanced_depth by done. simpl.
    by rewrite app_nil_r.
Qed.
