(* ===== verification/XmlReader.v ===== *)
(** * Reading the emitted text back (the consumer side of spec section 6)

    The file the worksheet pass writes is read by spreadsheet applications.
    This file holds a reader for the fragment of XML the emitter of
    [XmlWriter.v] produces (the declaration, start tags, end tags and
    empty tags with double-quoted, escaped attribute values), and the
    theorem that makes the emitter's output unambiguous: reading the text
    of a sequence of events whose tag names and attribute keys are plain
    gives exactly that sequence back, attribute values unescaped.

    - [read_name], [read_value], [read_attrs] and [read_events] scan the
      text left to right; [read_attrs] and [read_events] take a fuel
      argument, and [read_xml] starts them with the length of the text plus
      one, which is enough because every event and every attribute renders
      to at least one character ([render_length], [attrs_length]);
    - [name_char] is the condition on the characters of names: none of the
      characters that end a name ([name_stop]: space, [>], [/], [=]) and no
      [?], so that no tag reads as the declaration; [plain_name] asks in
      addition that a tag name be non-empty, since the empty tag with the
      empty name and no attributes renders as [</>], the text of an end
      tag: the emitter's output is ambiguous there, and only there;
    - [read_render] is the round trip; it rests on the escaping lemmas of
      [XmlWriter.v] (an escaped value holds no double quote, and unescaping
      undoes escaping). *)

From S2P Require Import Prelude XmlWriter.

(** ** The reader *)

Definition dq_char : ascii := ascii_of_nat 34.

(** The characters that end a tag name or an attribute key. *)
Definition name_stop (c : ascii) : bool :=
  bool_decide (c = " "%char) || bool_decide (c = ">"%char)
  || bool_decide (c = "/"%char) || bool_decide (c = "="%char).

Fixpoint read_name (s : string) : string * string :=
  match s with
  | EmptyString => ("", "")
  | String c s' =>
      if name_stop c then ("", s) else let '(n, r) := read_name s' in (String c n, r)
  end.

(** An attribute value: everything up to the closing double quote. *)
Fixpoint read_value (s : string) : option (string * string) :=
  match s with
  | EmptyString => None
  | String c s' =>
      if bool_decide (c = dq_char) then Some ("", s')
      else '(v, r) ← read_value s'; Some (String c v, r)
  end.

(** A run of [ key="value"] attributes, values unescaped. *)
Fixpoint read_attrs (fuel : nat) (s : string) : option (list attribute * string) :=
  match fuel with
  | O => None
  | S f =>
      match s with
      | String " " s1 =>
          let '(k, s2) := read_name s1 in
          match s2 with
          | String "=" (String q s3) =>
              if bool_decide (q = dq_char) then
                '(v, s4) ← read_value s3;
                '(rest, s5) ← read_attrs f s4;
                Some ((k, unescape_attributes v) :: rest, s5)
              else None
          | _ => None
          end
      | _ => Some ([], s)
      end
  end.

(** [Some r] when [s] is [p] followed by [r]. *)
Fixpoint strip_prefix (p s : string) : option string :=
  match p, s with
  | EmptyString, _ => Some s
  | String c p', String d s' => if bool_decide (c = d) then strip_prefix p' s' else None
  | _, _ => None
  end.

(** The body of a start or empty tag after its name. *)
Definition read_tag_rest (t : string) (s : string) : option (xml_event * string) :=
  '(a, s1) ← read_attrs (S (String.length s)) s;
  match s1 with
  | String ">" s2 => Some (StartTag t a, s2)
  | String "/" (String ">" s2) => Some (EmptyTag t a, s2)
  | _ => None
  end.

(** The first character of a text. *)
Definition first_char (s : string) : option ascii :=
  match s with
  | EmptyString => None
  | String c _ => Some c
  end.

Definition str_tail (s : string) : string :=
  match s with
  | EmptyString => EmptyString
  | String _ s' => s'
  end.

Fixpoint read_events (fuel : nat) (s : string) : option (list xml_event) :=
  match fuel with
  | O => None
  | S f =>
      match strip_prefix xml_declaration_text s with
      | Some r => evs ← read_events f r; Some (XmlDecl :: evs)
      | None =>
          match s with
          | EmptyString => Some []
          | String "<" s1 =>
              if bool_decide (first_char s1 = Some "/"%char) then
                let '(t, s2) := read_name (str_tail s1) in
                match s2 with
                | String ">" s3 => evs ← read_events f s3; Some (EndTag t :: evs)
                | _ => None
                end
              else
                let '(t, s2) := read_name s1 in
                '(e, s3) ← read_tag_rest t s2;
                evs ← read_events f s3; Some (e :: evs)
          | _ => None
          end
      end
  end.

Definition read_xml (s : string) : option (list xml_event) :=
  read_events (S (String.length s)) s.

(** ** Plain names *)

(** A character allowed in a name: none that ends a name, and no [?]. *)
Definition name_char (c : ascii) : bool :=
  negb (name_stop c) && negb (bool_decide (c = "?"%char)).

(** Tag names are non-empty: the empty tag with the empty name and no
    attributes would render as [</>], the text of an end tag. *)
Definition plain_name (n : string) : bool :=
  bool_decide (n <> "") && str_forallb name_char n.

Definition plain_event (e : xml_event) : bool :=
  match e with
  | XmlDecl => true
  | StartTag t a | EmptyTag t a => plain_name t && forallb (fun kv => str_forallb name_char kv.1) a
  | EndTag t => plain_name t
  end.

(** The text after a name: empty or starting with a character that ends
    the name. *)
Definition stops_name (r : string) : bool :=
  match r with
  | EmptyString => true
  | String c _ => name_stop c
  end.

(** ** Scanning lemmas *)

Lemma read_name_app (n r : string) :
  str_forallb name_char n = true -> stops_name r = true -> read_name (n +:+ r) = (n, r).
Proof.
  intros Hn Hr. induction n as [|c n IH]; simpl.
  - destruct r as [|c r]; simpl in *; [done|]. by rewrite Hr.
  - simpl in Hn. apply andb_prop in Hn as [Hc Hn].
    apply andb_prop in Hc as [Hc _]. apply negb_true_iff in Hc. rewrite Hc.
    by rewrite IH.
Qed.

Lemma read_value_app (v r : string) :
  str_forallb (fun c => negb (attr_special c)) v = true ->
  read_value (v +:+ String dq_char r) = Some (v, r).
Proof.
  intros Hv. induction v as [|c v IH]; [done|]. simpl.
  simpl in Hv. apply andb_prop in Hv as [Hc Hv].
  rewrite bool_decide_false, IH by (done || (intros ->; done)). done.
Qed.

(** An attribute run ends at the first character that is not a space. *)
Lemma read_attrs_stop (f : nat) (c : ascii) (r : string) :
  c <> " "%char -> read_attrs (S f) (String c r) = Some ([], String c r).
Proof. intros Hc. destruct c as [[] [] [] [] [] [] [] []]; done. Qed.

Lemma attrs_length (a : list attribute) :
  length a <= String.length (render_attributes a).
Proof.
  induction a as [|[k v] a IH]; simpl; [lia|].
  rewrite !str_length_app. simpl. rewrite !str_length_app. simpl. lia.
Qed.

Lemma render_length (evs : list xml_event) : length evs <= String.length (render evs).
Proof.
  induction evs as [|e evs IH]; simpl; [lia|].
  rewrite str_length_app. destruct e; simpl; lia.
Qed.

Lemma read_attrs_app (a : list attribute) (c : ascii) (r : string) (fuel : nat) :
  forallb (fun kv => str_forallb name_char kv.1) a = true -> c <> " "%char -> length a < fuel ->
  read_attrs fuel (render_attributes a +:+ String c r) = Some (a, String c r).
Proof.
  intros Ha Hc. revert fuel.
  induction a as [|[k v] a IH]; intros [|f] Hf; simpl in *; try lia.
  - by apply read_attrs_stop.
  - apply andb_prop in Ha as [Hk Ha]. str_norm.
    rewrite read_name_app by done. simpl. str_norm. simpl.
    change (ascii_of_nat 34) with dq_char.
    rewrite read_value_app by apply escape_attributes_safe. simpl.
    rewrite IH by (done || lia). simpl. by rewrite unescape_escape_attributes.
Qed.

Lemma strip_prefix_app (p r : string) : strip_prefix p (p +:+ r) = Some r.
Proof. induction p as [|c p IH]; simpl; [done|]. by rewrite bool_decide_true. Qed.

(** A tag name does not start with [?] or with a character that ends names. *)
Lemma first_char_name (t x : string) (c : ascii) :
  plain_name t = true -> name_stop c || bool_decide (c = "?"%char) = true ->
  first_char (t +:+ x) <> Some c.
Proof.
  unfold plain_name. destruct t as [|d t]; simpl; [done|].
  intros Ht Hc [= ->]. revert Ht Hc. unfold name_char.
  destruct (name_stop c), (bool_decide (c = "?"%char)); by rewrite ?andb_false_r.
Qed.

(** A tag is never taken for the declaration. *)
Lemma strip_decl_tag (s : string) :
  first_char s <> Some "?"%char -> strip_prefix xml_declaration_text ("<" +:+ s) = None.
Proof.
  intros Hs. destruct s as [|c s]; [done|]. simpl.
  rewrite bool_decide_false; [done|]. intros <-. done.
Qed.

(** The text of an opening [<t attrs] followed by [>] or [/]. *)
Lemma read_open_tag (f : nat) (t : string) (a : list attribute) (c : ascii) (y x : string) :
  plain_name t = true -> forallb (fun kv => str_forallb name_char kv.1) a = true ->
  c = ">"%char \/ c = "/"%char ->
  read_events (S f) ("<" +:+ t +:+ render_attributes a +:+ String c y +:+ x)
  = '(e, s) ← read_tag_rest t (render_attributes a +:+ String c y +:+ x);
    evs ← read_events f s; Some (e :: evs).
Proof.
  intros Ht Ha Hc.
  assert (Hq : forall d, d = "?"%char \/ d = "/"%char ->
            first_char (t +:+ render_attributes a +:+ String c y +:+ x) <> Some d).
  { intros d Hd. apply first_char_name; [done|]. by destruct Hd as [->| ->]. }
  cbn [read_events]. rewrite strip_decl_tag by (apply Hq; auto). simpl.
  rewrite bool_decide_false by (apply Hq; auto).
  apply andb_prop in Ht as [_ Ht].
  by rewrite read_name_app by (done || by destruct a as [|[]], Hc as [->| ->]).
Qed.

Lemma read_tag_rest_app (t : string) (a : list attribute) (c : ascii) (y x : string) :
  forallb (fun kv => str_forallb name_char kv.1) a = true -> c <> " "%char ->
  read_tag_rest t (render_attributes a +:+ String c y +:+ x)
  = match String c (y +:+ x) with
    | String ">" s2 => Some (StartTag t a, s2)
    | String "/" (String ">" s2) => Some (EmptyTag t a, s2)
    | _ => None
    end.
Proof.
  intros Ha Hc. unfold read_tag_rest. change (String c y +:+ x) with (String c (y +:+ x)).
  rewrite read_attrs_app; [done..|].
  rewrite str_length_app. pose proof (attrs_length a). lia.
Qed.

Lemma read_events_step (f : nat) (e : xml_event) (r : string) :
  plain_event e = true ->
  read_events (S f) (render_event e +:+ r) = evs ← read_events f r; Some (e :: evs).
Proof.
  intros He. destruct e as [|t a|t|t a]; simpl in He; cbn [render_event]; str_norm.
  - cbn [read_events]. by rewrite strip_prefix_app.
  - apply andb_prop in He as [Ht Ha].
    rewrite read_open_tag, read_tag_rest_app by auto. done.
  - cbn [read_events]. simpl. apply andb_prop in He as [_ He]. by rewrite read_name_app.
  - apply andb_prop in He as [Ht Ha].
    rewrite read_open_tag, read_tag_rest_app by auto. done.
Qed.

Lemma read_events_render (evs : list xml_event) (fuel : nat) :
  forallb plain_event evs = true -> length evs < fuel ->
  read_events fuel (render evs) = Some evs.
Proof.
  revert fuel. induction evs as [|e evs IH]; intros [|f] Hp Hf;
    cbn [render forallb length] in *; try lia; [done|].
  apply andb_prop in Hp as [He Hp].
  rewrite read_events_step, IH by (done || lia). done.
Qed.

(** Reading the text of plain events gives the events back. *)
Lemma read_render (evs : list xml_event) :
  forallb plain_event evs = true -> read_xml (render evs) = Some evs.
Proof.
  intros Hp. apply read_events_render; [done|]. pose proof (render_length evs). lia.
Qed.
