(* ===== verification/WorksheetState.v ===== *)
(** * The worksheet state ([Worksheet.__init__], [Worksheet.select])

    [src/xlsxwriter/worksheet.py] keeps every sheet-level setting as an
    attribute of [self], set by the constructor (lines 23-177).  The model
    groups the scalar attributes by the part of the sheet they configure,
    one record per group, in the order the constructor assigns them:
    Python integers are [Z], the floats of the margins are primitive binary64
    floats (the Python [float]), [None] is [None] of an [option], strings
    are [string].  The XML file handle [self.fh], inherited from
    [XMLwriter], is the field [fh] of any type with an [XmlWriter]
    instance.

    Attributes holding containers whose element type this source never
    fixes ([colinfo], [selections], [panes], [set_cols], [set_rows],
    [names], [table], [merge], [comments], the link and drawing lists, ...)
    hold Python values [pyval]: a list is [py_list], a dict an association
    list [py_dict] (insertion order kept, as a Python dict iterates), and
    an attribute set to [None] whose later type the source never fixes is
    [option pyval].  Every attribute the constructor assigns is a field.

    The only public setter of the source, [select], is [select]. *)

From S2P Require Import Prelude XmlWriter.
From Stdlib Require Import Floats.

Set Warnings "-inexact-float".
Local Open Scope Z_scope.

(** ** Python values held by the container attributes *)

#[local] Set Warnings "-register-all".
Inductive pyval : Type :=
| PyNone
| PyBool (b : bool)
| PyInt (z : Z)
| PyFloat (f : float)
| PyStr (s : string)
| PyList (l : list pyval)
| PyTuple (l : list pyval)
| PyDict (kv : list (pyval * pyval)).

Definition py_list : Type := list pyval.
Definition py_dict : Type := list (pyval * pyval).

(** ** Settings groups, in constructor order *)

(** Lines 31-45: identity of the sheet within the workbook ([excel_version],
    line 46, is a field of [Worksheet]). *)
Record SheetInfo := mkSheetInfo {
  name : option string;
  index : option Z;
  activesheet : option Z;
  firstsheet : option Z;
  str_total : option Z;
  str_unique : option Z;
  str_table : option pyval;
  table_count : option Z;
  date_1904 : option bool;
  palette : option pyval;
  optimization : Z;
  tempdir : option string;
  ext_sheets : py_list;
  fileclosed : Z
}.

Definition SheetInfo_init : SheetInfo := {|
  name := None; index := None; activesheet := None; firstsheet := None;
  str_total := None; str_unique := None; str_table := None; table_count := None;
  date_1904 := None; palette := None; optimization := 0; tempdir := None;
  ext_sheets := []; fileclosed := 0
|}.

(** Lines 48-54: the sheet's row, column and string limits and the
    running bounds of the cells written so far. *)
Record Dimensions := mkDimensions {
  xls_rowmax : Z;
  xls_colmax : Z;
  xls_strmax : Z;
  dim_rowmin : option Z;
  dim_rowmax : option Z;
  dim_colmin : option Z;
  dim_colmax : option Z
}.

Definition Dimensions_init : Dimensions := {|
  xls_rowmax := 1048576; xls_colmax := 16384; xls_strmax := 32767;
  dim_rowmin := None; dim_rowmax := None; dim_colmin := None; dim_colmax := None
|}.

(** Lines 56-64: the sheet view. *)
Record SheetView := mkSheetView {
  colinfo : py_list;
  selections : py_list;
  hidden : Z;
  active : Z;
  tab_color : Z;
  panes : py_list;
  active_pane : Z;
  selected : Z
}.

Definition SheetView_init : SheetView := {|
  colinfo := []; selections := []; hidden := 0; active := 0; tab_color := 0;
  panes := []; active_pane := 3; selected := 0
|}.

(** Lines 66-68. *)
Record PageSetup := mkPageSetup {
  page_setup_changed : Z;
  paper_size : Z;
  orientation : Z
}.

Definition PageSetup_init : PageSetup := {|
  page_setup_changed := 0; paper_size := 0; orientation := 1
|}.

(** Lines 70-75. *)
Record PrintOptions := mkPrintOptions {
  print_options_changed : Z;
  hcenter : Z;
  vcenter : Z;
  print_gridlines : Z;
  screen_gridlines : Z;
  print_headers : Z
}.

Definition PrintOptions_init : PrintOptions := {|
  print_options_changed := 0; hcenter := 0; vcenter := 0;
  print_gridlines := 0; screen_gridlines := 1; print_headers := 0
|}.

(** Lines 77-79. *)
Record HeaderFooter := mkHeaderFooter {
  header_footer_changed : Z;
  header : string;
  footer : string
}.

Definition HeaderFooter_init : HeaderFooter := {|
  header_footer_changed := 0; header := ""; footer := ""
|}.

(** Lines 81-86: the six page margins, in inches. *)
Record Margins := mkMargins {
  margin_left : float;
  margin_right : float;
  margin_top : float;
  margin_bottom : float;
  margin_header : float;
  margin_footer : float
}.

Definition Margins_init : Margins := {|
  margin_left := 0.7; margin_right := 0.7; margin_top := 0.75;
  margin_bottom := 0.75; margin_header := 0.3; margin_footer := 0.3
|}%float.

(** Lines 88-103: print titles and area, page order and quality, fitting,
    and the page breaks (row numbers). *)
Record PrintLayout := mkPrintLayout {
  repeat_rows : string;
  repeat_cols : string;
  print_area : string;
  page_order : Z;
  black_white : Z;
  draft_quality : Z;
  print_comments : Z;
  page_start : Z;
  fit_page : Z;
  fit_width : Z;
  fit_height : Z;
  hbreaks : list Z;
  vbreaks : list Z
}.

Definition PrintLayout_init : PrintLayout := {|
  repeat_rows := ""; repeat_cols := ""; print_area := "";
  page_order := 0; black_white := 0; draft_quality := 0; print_comments := 0;
  page_start := 0; fit_page := 0; fit_width := 0; fit_height := 0;
  hbreaks := []; vbreaks := []
|}.

(** Lines 105-106. *)
Record Protection := mkProtection {
  protect : Z;
  password : option string
}.

Definition Protection_init : Protection := {| protect := 0; password := None |}.

(** Lines 108-109: the per-column and per-row settings. *)
Record RowColInfo := mkRowColInfo {
  set_cols : py_dict;
  set_rows : py_dict
}.

Definition RowColInfo_init : RowColInfo := {| set_cols := []; set_rows := [] |}.

(** Lines 111-116: zoom and display options. *)
Record Display := mkDisplay {
  zoom : Z;
  zoom_scale_normal : Z;
  print_scale : Z;
  right_to_left : Z;
  show_zeros : Z;
  leading_zeros : Z
}.

Definition Display_init : Display := {|
  zoom := 100; zoom_scale_normal := 1; print_scale := 100;
  right_to_left := 0; show_zeros := 1; leading_zeros := 0
|}.

(** Lines 118-124. *)
Record Outline := mkOutline {
  outline_row_level : Z;
  outline_col_level : Z;
  outline_style : Z;
  outline_below : Z;
  outline_right : Z;
  outline_on : Z;
  outline_changed : Z
}.

Definition Outline_init : Outline := {|
  outline_row_level := 0; outline_col_level := 0; outline_style := 0;
  outline_below := 1; outline_right := 1; outline_on := 1; outline_changed := 0
|}.

(** Lines 126-127. *)
Record SheetFormat := mkSheetFormat {
  default_row_height : Z;
  default_row_zeroed : Z
}.

Definition SheetFormat_init : SheetFormat := {|
  default_row_height := 15; default_row_zeroed := 0
|}.

(** Lines 129-132: defined names, write handlers, tables and merged
    ranges. *)
Record NamesTables := mkNamesTables {
  names : py_dict;
  write_match : py_list;
  table : py_dict;
  merge : py_list
}.

Definition NamesTables_init : NamesTables := {|
  names := []; write_match := []; table := []; merge := []
|}.

(** Lines 134-177: the optional features (comments, buttons, autofilter,
    row/column sizes, hyperlinks, relationships, drawings, rich strings,
    validations, conditional formats). *)
Record Features := mkFeatures {
  has_vml : Z;
  has_comments : Z;
  comments : py_dict;
  comments_array : py_list;
  comments_author : string;
  comments_visible : Z;
  vml_shape_id : Z;
  buttons_array : py_list;
  autofilter : string;
  filter_on : Z;
  filter_range : py_list;
  filter_cols : py_dict;
  col_sizes : py_dict;
  row_sizes : py_dict;
  col_formats : py_dict;
  col_size_changed : Z;
  row_size_changed : Z;
  last_shape_id : Z;
  rel_count : Z;
  hlink_count : Z;
  hlink_refs : py_list;
  external_hyper_links : py_list;
  external_drawing_links : py_list;
  external_comment_links : py_list;
  external_vml_links : py_list;
  external_table_links : py_list;
  drawing_links : py_list;
  charts : py_list;
  images : py_list;
  tables : py_list;
  sparklines : py_list;
  shapes : py_list;
  shape_hash : py_dict;
  drawing : Z;
  rstring : string;
  previous_row : Z;
  validations : py_list;
  cond_formats : py_dict;
  dxf_priority : Z
}.

Definition Features_init : Features := {|
  has_vml := 0; has_comments := 0; comments := []; comments_array := [];
  comments_author := ""; comments_visible := 0; vml_shape_id := 1024;
  buttons_array := []; autofilter := ""; filter_on := 0; filter_range := [];
  filter_cols := []; col_sizes := []; row_sizes := []; col_formats := [];
  col_size_changed := 0; row_size_changed := 0; last_shape_id := 1;
  rel_count := 0; hlink_count := 0; hlink_refs := []; external_hyper_links := [];
  external_drawing_links := []; external_comment_links := [];
  external_vml_links := []; external_table_links := []; drawing_links := [];
  charts := []; images := []; tables := []; sparklines := []; shapes := [];
  shape_hash := []; drawing := 0; rstring := ""; previous_row := 0;
  validations := []; cond_formats := []; dxf_priority := 1
|}.

(** ** The worksheet object *)

(** [self]: the settings groups, [excel_version] (line 46, the schema
    revision flag), and the inherited file handle [fh]. *)
Record Worksheet (B : Type) := mkWorksheet {
  ws_info : SheetInfo;
  excel_version : Z;
  ws_dims : Dimensions;
  ws_view : SheetView;
  ws_page : PageSetup;
  ws_print : PrintOptions;
  ws_hf : HeaderFooter;
  ws_margins : Margins;
  ws_layout : PrintLayout;
  ws_protect : Protection;
  ws_rowcol : RowColInfo;
  ws_display : Display;
  ws_outline : Outline;
  ws_format : SheetFormat;
  ws_names : NamesTables;
  ws_features : Features;
  fh : B
}.
Arguments mkWorksheet {B}.
Arguments ws_info {B}. Arguments excel_version {B}. Arguments ws_dims {B}.
Arguments ws_view {B}. Arguments ws_page {B}. Arguments ws_print {B}.
Arguments ws_hf {B}. Arguments ws_margins {B}. Arguments ws_layout {B}.
Arguments ws_protect {B}. Arguments ws_rowcol {B}. Arguments ws_display {B}. Arguments ws_outline {B}.
Arguments ws_format {B}. Arguments ws_names {B}. Arguments ws_features {B}. Arguments fh {B}.

(** [Worksheet.__init__]: every group at its initial value, writing into
    the buffer [fh0]. *)
Definition Worksheet_init {B} (fh0 : B) : Worksheet B := {|
  ws_info := SheetInfo_init; excel_version := 2007;
  ws_dims := Dimensions_init; ws_view := SheetView_init;
  ws_page := PageSetup_init; ws_print := PrintOptions_init;
  ws_hf := HeaderFooter_init; ws_margins := Margins_init;
  ws_layout := PrintLayout_init; ws_protect := Protection_init;
  ws_rowcol := RowColInfo_init; ws_display := Display_init;
  ws_outline := Outline_init; ws_format := SheetFormat_init;
  ws_names := NamesTables_init; ws_features := Features_init; fh := fh0
|}.

(** ** Attribute assignment *)

Section Setters.
Context {B : Type}.

(** [self.excel_version = v]. *)
Definition set_excel_version (v : Z) (ws : Worksheet B) : Worksheet B :=
  {| ws_info := ws_info ws; excel_version := v;
     ws_dims := ws_dims ws; ws_view := ws_view ws; ws_page := ws_page ws;
     ws_print := ws_print ws; ws_hf := ws_hf ws; ws_margins := ws_margins ws;
     ws_layout := ws_layout ws; ws_protect := ws_protect ws;
     ws_rowcol := ws_rowcol ws; ws_display := ws_display ws;
     ws_outline := ws_outline ws; ws_format := ws_format ws;
     ws_names := ws_names ws; ws_features := ws_features ws; fh := fh ws |}.

(** An update of the view group. *)
Definition update_view (f : SheetView -> SheetView) (ws : Worksheet B) : Worksheet B :=
  {| ws_info := ws_info ws; excel_version := excel_version ws;
     ws_dims := ws_dims ws; ws_view := f (ws_view ws); ws_page := ws_page ws;
     ws_print := ws_print ws; ws_hf := ws_hf ws; ws_margins := ws_margins ws;
     ws_layout := ws_layout ws; ws_protect := ws_protect ws;
     ws_rowcol := ws_rowcol ws; ws_display := ws_display ws;
     ws_outline := ws_outline ws; ws_format := ws_format ws;
     ws_names := ws_names ws; ws_features := ws_features ws; fh := fh ws |}.

(** A write through the file handle: [f] is an emitter call. *)
Definition update_fh (f : B -> B) (ws : Worksheet B) : Worksheet B :=
  {| ws_info := ws_info ws; excel_version := excel_version ws;
     ws_dims := ws_dims ws; ws_view := ws_view ws; ws_page := ws_page ws;
     ws_print := ws_print ws; ws_hf := ws_hf ws; ws_margins := ws_margins ws;
     ws_layout := ws_layout ws; ws_protect := ws_protect ws;
     ws_rowcol := ws_rowcol ws; ws_display := ws_display ws;
     ws_outline := ws_outline ws; ws_format := ws_format ws;
     ws_names := ws_names ws; ws_features := ws_features ws; fh := f (fh ws) |}.
End Setters.

Definition view_set_selected (n : Z) (v : SheetView) : SheetView :=
  {| colinfo := colinfo v; selections := selections v; hidden := hidden v;
     active := active v; tab_color := tab_color v; panes := panes v;
     active_pane := active_pane v; selected := n |}.

Definition view_set_hidden (n : Z) (v : SheetView) : SheetView :=
  {| colinfo := colinfo v; selections := selections v; hidden := n;
     active := active v; tab_color := tab_color v; panes := panes v;
     active_pane := active_pane v; selected := selected v |}.

(** ** [Worksheet.select] (lines 181-200) *)

(** [self.selected = 1], then [self.hidden = 0]. *)
Definition select {B} : Worksheet B -> Worksheet B :=
  (update_view (view_set_selected 1) >>> update_view (view_set_hidden 0))%xlsx.

(** ** Theorems of the state *)

(** C6.  [select] sets [selected] to 1 and [hidden] to 0 whatever their
    values before, and changes nothing else: putting the two old values
    back gives the original object. *)
Theorem select_spec {B} (ws : Worksheet B) :
  selected (ws_view (select ws)) = 1
  /\ hidden (ws_view (select ws)) = 0
  /\ update_view (fun v => view_set_hidden (hidden (ws_view ws))
                    (view_set_selected (selected (ws_view ws)) v)) (select ws) = ws.
Proof. destruct ws as [? ? ? []]. done. Qed.
