(* ===== verification/CellRef.v ===== *)
(** * Cell references in A1 notation

    The spec's Dimension Calculator (section 4.2) renders a cell range as
    ["TopLeft:BottomRight"] in column-letter/row-number notation, e.g.
    [A1:C10].  The worksheet of this snapshot never calls such a routine
    (its dimension is the literal [A1]); the notation is the one of
    XlsxWriter's [utility.xl_col_to_name] / [xl_rowcol_to_cell], which is
    not under [src/], and is modelled from the spec:
    - [xl_col_to_name]: the zero-based column index in bijective base 26
      ([0 -> A], [25 -> Z], [26 -> AA], [16383 -> XFD]), by the loop
      "remainder := n mod 26 (26 when 0); prepend letter; n := (n-1)/26",
      defined with Equations by well-founded recursion on the index;
    - [row_to_string]: the one-based row number in decimal;
    - [xl_rowcol_to_cell]: column letters then row digits;
    and their parsers [xl_name_to_col], [string_to_row], [xl_cell_to_rowcol].
    [col_name_while] is the loop as Python runs it, [while col_num:], with
    fuel counting the tests of its condition.
    The theorems are the round trips between printer and parser, and the
    termination of the [while] loop: it stops after one more test than the
    name has letters, within four tests up to the constructor's column
    limit [xls_colmax] (hence the import of [WorksheetState.v]). *)

From S2P Require Import Prelude WorksheetState.
From Stdlib Require Import DecimalString DecimalN.
From Equations Require Import Equations.

Local Open Scope Z_scope.

(** ** Column letters *)

(** [chr(ord('A') + remainder - 1)]. *)
Definition col_letter (remainder : Z) : ascii := ascii_of_nat (Z.to_nat (64 + remainder)).

(** The loop of [xl_col_to_name] on the one-based column number. *)
Equations? col_name_loop (col_num : Z) (col_str : string) : string
  by wf (Z.to_nat col_num) lt :=
  col_name_loop col_num col_str with decide (0 < col_num) => {
    | left _ =>
        let remainder := if decide (col_num mod 26 = 0) then 26 else col_num mod 26 in
        col_name_loop ((col_num - 1) / 26) (String (col_letter remainder) col_str);
    | right _ => col_str }.
Proof. apply Z2Nat.inj_lt; [apply Z.div_pos| |apply Z.div_lt_upper_bound]; lia. Qed.

(** [xl_col_to_name(col)]: [col_num = col + 1], then the loop. *)
Definition xl_col_to_name (col : Z) : string := col_name_loop (col + 1) "".

(** The same loop as the code writes it, [while col_num:], run for at
    most [fuel] tests of its condition; [None] when the fuel runs out
    first. *)
Fixpoint col_name_while (fuel : nat) (col_num : Z) (col_str : string) : option string :=
  match fuel with
  | O => None
  | S f =>
      if decide (col_num = 0) then Some col_str
      else
        let remainder := if decide (col_num mod 26 = 0) then 26 else col_num mod 26 in
        col_name_while f ((col_num - 1) / 26) (String (col_letter remainder) col_str)
  end.

(** The value of an upper-case letter, [A = 1] to [Z = 26]. *)
Definition letter_value (c : ascii) : option Z :=
  let n := Z.of_nat (nat_of_ascii c) in
  if decide (65 <= n <= 90) then Some (n - 64) else None.

(** Read a column name: [col = sum of letter * 26^k], then minus one. *)
Fixpoint col_value (acc : Z) (s : string) : option Z :=
  match s with
  | EmptyString => Some acc
  | String c s' => letter_value c ≫= fun d => col_value (acc * 26 + d) s'
  end.

Definition xl_name_to_col (s : string) : option Z :=
  match s with
  | EmptyString => None
  | _ => (fun v => v - 1) <$> col_value 0 s
  end.

(** ** Row numbers *)

(** [str(row + 1)] for a zero-based row: decimal digits of [n]. *)
Definition row_to_string (n : Z) : string :=
  NilZero.string_of_uint (N.to_uint (Z.to_N n)).

Definition string_to_row (s : string) : option Z :=
  (fun u => Z.of_N (N.of_uint u)) <$> NilZero.uint_of_string s.

(** ** Cells *)

(** [xl_rowcol_to_cell(row, col)]. *)
Definition xl_rowcol_to_cell (row col : Z) : string :=
  xl_col_to_name col +:+ row_to_string (row + 1).

(** Split a reference into its leading letters and the rest. *)
Fixpoint split_letters (s : string) : string * string :=
  match s with
  | EmptyString => ("", "")
  | String c s' =>
      match letter_value c with
      | Some _ => let '(l, r) := split_letters s' in (String c l, r)
      | None => ("", s)
      end
  end.

(** [xl_cell_to_rowcol(cell)]: the zero-based (row, column). *)
Definition xl_cell_to_rowcol (cell : string) : option (Z * Z) :=
  let '(letters, digits) := split_letters cell in
  col ← xl_name_to_col letters;
  row ← string_to_row digits;
  if decide (1 <= row) then Some (row - 1, col) else None.

(** ** The column loop *)

(** The remainder of one iteration, [1..26]. *)
Definition col_remainder (n : Z) : Z := if decide (n mod 26 = 0) then 26 else n mod 26.

Lemma col_name_loop_step (n : Z) (acc : string) :
  col_name_loop n acc =
  if decide (0 < n) then col_name_loop ((n - 1) / 26) (String (col_letter (col_remainder n)) acc)
  else acc.
Proof.
  rewrite col_name_loop_equation_1. destruct (decide (0 < n)); [|done].
  simpl. unfold col_remainder. done.
Qed.

Lemma col_name_loop_nonpos (n : Z) (acc : string) : n <= 0 -> col_name_loop n acc = acc.
Proof. intros Hn. rewrite col_name_loop_step. case_decide; [lia | done]. Qed.

Lemma col_remainder_range (n : Z) : 1 <= col_remainder n <= 26.
Proof. unfold col_remainder. case_decide; [lia|]. pose proof (Z.mod_pos_bound n 26). lia. Qed.

(** One iteration in arithmetic terms: [n = 26 * q + r] with [r] in [1..26]. *)
Lemma col_remainder_div (n : Z) : 0 < n -> n = 26 * ((n - 1) / 26) + col_remainder n.
Proof. intros Hn. unfold col_remainder. case_decide; zdiv_lia. Qed.

(** The loop prepends to its accumulator: the accumulator is a suffix. *)
Lemma col_name_loop_acc (n : Z) (acc : string) :
  col_name_loop n acc = col_name_loop n "" +:+ acc.
Proof.
  destruct (decide (0 <= n)) as [Hn|Hn]; [|by rewrite !col_name_loop_nonpos by lia].
  revert acc. pattern n. apply Z_lt_induction; [|exact Hn]. clear n Hn.
  intros n IH acc. rewrite (col_name_loop_step n acc), (col_name_loop_step n "").
  case_decide; [|done].
  assert (Hq : 0 <= (n - 1) / 26 < n) by zdiv_lia.
  rewrite (IH _ Hq (String _ acc)), (IH _ Hq (String _ "")).
  by rewrite str_app_assoc.
Qed.

(** A letter's value read back. *)
Lemma letter_value_col_letter (r : Z) : 1 <= r <= 26 -> letter_value (col_letter r) = Some r.
Proof.
  intros Hr. unfold letter_value, col_letter.
  rewrite nat_ascii_embedding by lia. rewrite Z2Nat.id by lia.
  case_decide; [f_equal; lia | lia].
Qed.

Lemma col_letter_value (c : ascii) (d : Z) : letter_value c = Some d -> col_letter d = c.
Proof.
  unfold letter_value, col_letter. case_decide; [|done]. intros [= <-].
  replace (64 + (Z.of_nat (nat_of_ascii c) - 64)) with (Z.of_nat (nat_of_ascii c)) by lia.
  by rewrite Nat2Z.id, ascii_nat_embedding.
Qed.

Lemma col_value_app (acc : Z) (s1 s2 : string) :
  col_value acc (s1 +:+ s2) = col_value acc s1 ≫= fun a => col_value a s2.
Proof.
  revert acc. induction s1 as [|c s1 IH]; intros acc; simpl; [done|].
  destruct (letter_value c); simpl; [apply IH | done].
Qed.

(** One iteration of the loop on the one-based number [n > 0]: the name of
    the quotient, then the letter of the remainder. *)
Lemma col_name_loop_pos (n : Z) :
  0 < n ->
  col_name_loop n "" = col_name_loop ((n - 1) / 26) "" +:+ String (col_letter (col_remainder n)) "".
Proof. intros Hn. rewrite col_name_loop_step, col_name_loop_acc. by case_decide. Qed.

(** The one-based number printed by the loop reads back as itself. *)
Lemma col_value_col_name_loop (n : Z) : 0 <= n -> col_value 0 (col_name_loop n "") = Some n.
Proof.
  intros Hn. refine (Z_lt_induction
    (fun m => 0 <= m -> col_value 0 (col_name_loop m "") = Some m) _ n Hn Hn).
  clear n Hn. intros n IH Hn.
  destruct (decide (0 < n)) as [Hpos|Hpos]; [|rewrite col_name_loop_nonpos by lia; simpl; f_equal; lia].
  assert (Hq : 0 <= (n - 1) / 26 < n) by zdiv_lia.
  rewrite col_name_loop_pos, col_value_app, IH by (done || lia). simpl.
  rewrite letter_value_col_letter by apply col_remainder_range. simpl.
  f_equal. pose proof (col_remainder_div n Hpos). lia.
Qed.

(** Reading a name on top of the value [acc] amounts to printing [acc]
    followed by the name. *)
Lemma col_value_col_name (acc v : Z) (s : string) :
  col_value acc s = Some v -> 0 <= acc -> col_name_loop v "" = col_name_loop acc "" +:+ s.
Proof.
  revert acc. induction s as [|c s IH]; intros acc Hv Hacc; simpl in Hv.
  - injection Hv as <-. by rewrite str_app_nil_r.
  - destruct (letter_value c) as [d|] eqn:Hc; [|done]. simpl in Hv.
    assert (Hd : 1 <= d <= 26).
    { unfold letter_value in Hc. case_decide; [|done]. injection Hc as <-. lia. }
    rewrite (IH _ Hv) by lia. rewrite col_name_loop_pos by lia.
    assert (Hr : col_remainder (acc * 26 + d) = d) by (unfold col_remainder; case_decide; zdiv_lia).
    rewrite Hr, (col_letter_value c d Hc).
    replace ((acc * 26 + d - 1) / 26) with acc by zdiv_lia.
    by rewrite str_app_assoc.
Qed.

Lemma xl_name_to_col_nonempty (s : string) :
  s <> "" -> xl_name_to_col s = (fun v => v - 1) <$> col_value 0 s.
Proof. by destruct s. Qed.

(** ** Round trips of column names *)

(** Every column index from 0 prints to a name that reads back as the
    same index. *)
Lemma xl_col_to_name_roundtrip (col : Z) :
  0 <= col -> xl_name_to_col (xl_col_to_name col) = Some col.
Proof.
  intros Hc. unfold xl_col_to_name.
  rewrite xl_name_to_col_nonempty, col_value_col_name_loop by
    (try rewrite col_name_loop_pos by lia; try destruct (col_name_loop _ _); done || lia).
  simpl. f_equal. lia.
Qed.

(** Every string that parses as a column name is the printed name of the
    index it parses to: there is exactly one spelling per column. *)
Lemma xl_name_to_col_canonical (s : string) (col : Z) :
  xl_name_to_col s = Some col -> xl_col_to_name col = s.
Proof.
  destruct s as [|c s']; [done|]. intros H.
  rewrite xl_name_to_col_nonempty in H by done.
  destruct (col_value 0 (String c s')) as [v|] eqn:Hv; [|done]. injection H as <-.
  unfold xl_col_to_name. replace (v - 1 + 1) with v by lia.
  rewrite (col_value_col_name 0 v _ Hv) by lia. by rewrite col_name_loop_nonpos by lia.
Qed.

(** ** Round trips of row numbers and cells *)

Lemma N_to_uint_nonnil (n : N) : N.to_uint n <> Decimal.Nil.
Proof.
  intros H. assert (n = 0%N) as ->; [|discriminate H].
  apply (f_equal N.of_uint) in H. by rewrite Unsigned.of_to in H.
Qed.

Lemma row_to_string_roundtrip (n : Z) : 0 <= n -> string_to_row (row_to_string n) = Some n.
Proof.
  intros Hn. unfold string_to_row, row_to_string.
  rewrite NilZero.usu by apply N_to_uint_nonnil. simpl.
  by rewrite Unsigned.of_to, Z2N.id.
Qed.

(** A row number starts with a digit, which is no letter. *)
Lemma split_letters_row (n : Z) : split_letters (row_to_string n) = ("", row_to_string n).
Proof. unfold row_to_string. by destruct (N.to_uint (Z.to_N n)). Qed.

(** The letters of a readable name are all taken by [split_letters]. *)
Lemma split_letters_app (acc v : Z) (s t : string) :
  col_value acc s = Some v ->
  split_letters (s +:+ t) = let '(l, r) := split_letters t in (s +:+ l, r).
Proof.
  revert acc. induction s as [|c s IH]; intros acc Hv; simpl in *.
  - by destruct (split_letters t).
  - destruct (letter_value c) eqn:Hc; [|done]. simpl in Hv.
    rewrite (IH _ Hv). by destruct (split_letters t).
Qed.

Lemma col_name_nonempty (col : Z) : 0 <= col -> xl_col_to_name col <> "".
Proof.
  intros Hc. unfold xl_col_to_name. rewrite col_name_loop_pos by lia.
  by destruct (col_name_loop _ _).
Qed.

(** Every cell with non-negative coordinates prints to a reference that
    reads back as the same cell. *)
Lemma xl_cell_roundtrip (row col : Z) :
  0 <= row -> 0 <= col -> xl_cell_to_rowcol (xl_rowcol_to_cell row col) = Some (row, col).
Proof.
  intros Hr Hc. unfold xl_cell_to_rowcol, xl_rowcol_to_cell.
  pose proof (col_value_col_name_loop (col + 1) ltac:(lia)) as Hv.
  rewrite (split_letters_app 0 (col + 1)) by exact Hv.
  rewrite split_letters_row, str_app_nil_r. simpl.
  rewrite xl_col_to_name_roundtrip, row_to_string_roundtrip by lia. simpl.
  case_decide; [do 2 f_equal; lia | lia].
Qed.

(** ** Widths *)

(** The largest one-based column number whose name has [k] letters. *)
Fixpoint max_col_num (k : nat) : Z :=
  match k with O => 0 | S k' => 26 * max_col_num k' + 26 end.

Lemma col_name_loop_length (k : nat) (n : Z) :
  n <= max_col_num k -> (String.length (col_name_loop n "") <= k)%nat.
Proof.
  revert n. induction k as [|k IH]; intros n Hn; simpl in Hn.
  - rewrite col_name_loop_nonpos by lia. simpl. lia.
  - destruct (decide (0 < n)) as [Hpos|Hpos]; [|rewrite col_name_loop_nonpos by lia; simpl; lia].
    rewrite col_name_loop_pos, str_length_app by done. simpl.
    pose proof (IH ((n - 1) / 26) ltac:(zdiv_lia)). lia.
Qed.

(** ** Termination of the [while] loop *)

Lemma col_name_loop_length_pos (n : Z) :
  0 < n ->
  String.length (col_name_loop n "") = S (String.length (col_name_loop ((n - 1) / 26) "")).
Proof. intros Hn. rewrite col_name_loop_pos, str_length_app by done. simpl. lia. Qed.

(** With more tests than the name has letters, the loop stops with the
    name. *)
Lemma col_name_while_enough (fuel : nat) (n : Z) (s : string) :
  0 <= n -> (String.length (col_name_loop n "") < fuel)%nat ->
  col_name_while fuel n s = Some (col_name_loop n s).
Proof.
  revert n s. induction fuel as [|f IH]; intros n s Hn Hf; [lia|]. simpl.
  case_decide as Hz; [subst; by rewrite col_name_loop_nonpos by lia|].
  rewrite (col_name_loop_step n s). destruct (decide (0 < n)); [|lia]. unfold col_remainder.
  apply IH; [zdiv_lia|]. rewrite col_name_loop_length_pos in Hf by lia. lia.
Qed.

(** With at most as many tests as letters, the fuel runs out. *)
Lemma col_name_while_short (fuel : nat) (n : Z) (s : string) :
  0 <= n -> (fuel <= String.length (col_name_loop n ""))%nat ->
  col_name_while fuel n s = None.
Proof.
  revert n s. induction fuel as [|f IH]; intros n s Hn Hf; [done|]. simpl.
  case_decide as Hz; [subst; rewrite col_name_loop_nonpos in Hf by lia; simpl in Hf; lia|].
  apply IH; [zdiv_lia|]. rewrite col_name_loop_length_pos in Hf by lia. lia.
Qed.

(** C12.  Termination of [xl_col_to_name]'s [while col_num:] loop: on a
    non-negative column number it stops exactly when it has tested its
    condition once more than the name has letters, and then returns the
    name the well-founded definition gives; with fewer tests it has not
    stopped.  Up to the constructor's column limit [xls_colmax] (16384,
    the one-based number of the last column [XFD]), four tests always
    suffice. *)
Theorem col_name_while_terminates (n : Z) (s : string) (fuel : nat) :
  0 <= n ->
  col_name_while fuel n s
  = (if decide (String.length (col_name_loop n "") < fuel)%nat
     then Some (col_name_loop n s) else None)
  /\ (n <= xls_colmax Dimensions_init -> col_name_while 4 n s = Some (col_name_loop n s)).
Proof.
  intros Hn. split.
  - case_decide; [by apply col_name_while_enough | apply col_name_while_short; lia].
  - intros Hmax. simpl in Hmax. apply col_name_while_enough; [done|].
    pose proof (col_name_loop_length 3 n ltac:(simpl; lia)). lia.
Qed.

Lemma col_name_while_terminates_witness :
  0 <= 16384 /\ col_name_while 4 16384 "" = Some "XFD".
Proof.
  split; [lia|].
  destruct (col_name_while_terminates 16384 "" 4 ltac:(lia)) as [_ H].
  rewrite (H ltac:(simpl; lia)). reflexivity.
Defined.

(** ** Ranges *)

(** Split at the first [:]. *)
Fixpoint split_colon (s : string) : string * string :=
  match s with
  | EmptyString => ("", "")
  | String c s' =>
      if decide (c = ":"%char) then ("", s')
      else let '(a, b) := split_colon s' in (String c a, b)
  end.

Definition no_colon (s : string) : bool := str_forallb (fun c => bool_decide (c <> ":"%char)) s.

Lemma no_colon_app (s1 s2 : string) : no_colon (s1 +:+ s2) = no_colon s1 && no_colon s2.
Proof. apply str_forallb_app. Qed.

Lemma split_colon_app (s t : string) :
  no_colon s = true -> split_colon (s +:+ String ":" t) = (s, t).
Proof.
  induction s as [|c s IH]; simpl; [done|]. unfold no_colon; simpl.
  intros [Hc Hs]%andb_true_iff. apply bool_decide_eq_true in Hc.
  case_decide; [done|]. by rewrite IH.
Qed.

Lemma no_colon_col_value (acc v : Z) (s : string) : col_value acc s = Some v -> no_colon s = true.
Proof.
  revert acc. induction s as [|c s IH]; intros acc Hv; simpl in *; [done|].
  destruct (letter_value c) eqn:Hc; [|done]. unfold no_colon; simpl.
  apply andb_true_iff. split; [|exact (IH _ Hv)].
  apply bool_decide_eq_true. intros ->. discriminate Hc.
Qed.

Lemma no_colon_row (n : Z) : no_colon (row_to_string n) = true.
Proof.
  unfold row_to_string, NilZero.string_of_uint.
  destruct (N.to_uint (Z.to_N n)) as [|u|u|u|u|u|u|u|u|u|u]; [done|..];
    induction u; done.
Qed.

Lemma no_colon_cell (row col : Z) : 0 <= col -> no_colon (xl_rowcol_to_cell row col) = true.
Proof.
  intros Hc. unfold xl_rowcol_to_cell. rewrite no_colon_app, no_colon_row, andb_true_r.
  exact (no_colon_col_value _ _ _ (col_value_col_name_loop (col + 1) ltac:(lia))).
Qed.
