(* ===== verification/Dimension.v ===== *)
(** * The Dimension Calculator (spec section 4.2)

    The constructor of [src/xlsxwriter/worksheet.py] declares the sheet's
    limits [xls_rowmax = 1048576], [xls_colmax = 16384] and the running
    bounds [dim_rowmin .. dim_colmax], all [None] (lines 48-54): the
    [Dimensions] record of [WorksheetState.v].  No method of this snapshot
    updates the bounds, and [_write_dimension] writes the literal [A1].
    The calculator the spec describes is therefore modelled from the spec:
    - [check_dimensions row col]: raise [OutOfRange] when a coordinate is
      outside [0 .. xls_rowmax - 1] x [0 .. xls_colmax - 1], otherwise widen
      the four bounds to include the cell ("if dim_rowmin is None or row <
      dim_rowmin: dim_rowmin = row", and likewise);
    - [observe_cells]: the cell-writing collaborator observing a sequence
      of cells, stopping at the first error;
    - [dimension_ref]: [A1] when no cell was observed, otherwise the
      two-corner reference [TopLeft:BottomRight].

    The theorems: the boundary check, the error path, the invariant that
    the bounds are the tightest rectangle around the cells observed, and
    the round trip of the reference string. *)

From S2P Require Import Prelude CellRef WorksheetState.

Local Open Scope Z_scope.

Inductive dim_error : Type := OutOfRange.

#[export] Instance dim_error_eq_dec : EqDecision dim_error.
Proof. solve_decision. Defined.

(** [if bound is None or v < bound: bound = v]. *)
Definition lower_bound (v : Z) (bound : option Z) : option Z :=
  match bound with
  | Some m => if decide (v < m) then Some v else Some m
  | None => Some v
  end.

(** [if bound is None or v > bound: bound = v]. *)
Definition upper_bound (v : Z) (bound : option Z) : option Z :=
  match bound with
  | Some m => if decide (m < v) then Some v else Some m
  | None => Some v
  end.

(** A cell inside the sheet's limits. *)
Definition in_limits (d : Dimensions) (cell : Z * Z) : Prop :=
  0 <= cell.1 < xls_rowmax d /\ 0 <= cell.2 < xls_colmax d.

#[export] Instance in_limits_dec d cell : Decision (in_limits d cell).
Proof. unfold in_limits. apply _. Defined.

Definition check_dimensions (row col : Z) (d : Dimensions) : result dim_error Dimensions :=
  if decide (in_limits d (row, col)) then
    Ok {| xls_rowmax := xls_rowmax d; xls_colmax := xls_colmax d;
          xls_strmax := xls_strmax d;
          dim_rowmin := lower_bound row (dim_rowmin d);
          dim_rowmax := upper_bound row (dim_rowmax d);
          dim_colmin := lower_bound col (dim_colmin d);
          dim_colmax := upper_bound col (dim_colmax d) |}
  else Err OutOfRange.

Fixpoint observe_cells (cells : list (Z * Z)) (d : Dimensions) : result dim_error Dimensions :=
  match cells with
  | [] => Ok d
  | (row, col) :: rest => check_dimensions row col d ≫= observe_cells rest
  end.

Definition dimension_ref (d : Dimensions) : string :=
  match dim_rowmin d, dim_colmin d, dim_rowmax d, dim_colmax d with
  | Some r1, Some c1, Some r2, Some c2 =>
      xl_rowcol_to_cell r1 c1 +:+ ":" +:+ xl_rowcol_to_cell r2 c2
  | _, _, _, _ => "A1"
  end.

(** ** The invariant: the bounds are the tightest rectangle *)

(** Every cell of [cells] inside rows [r1..r2] and columns [c1..c2], and
    each of the four edges touched by some cell. *)
Definition tight (cells : list (Z * Z)) (r1 r2 c1 c2 : Z) : Prop :=
  (forall r c, (r, c) ∈ cells -> r1 <= r <= r2 /\ c1 <= c <= c2)
  /\ (exists c, (r1, c) ∈ cells) /\ (exists c, (r2, c) ∈ cells)
  /\ (exists r, (r, c1) ∈ cells) /\ (exists r, (r, c2) ∈ cells).

(** No bound set before the first cell; afterwards the four bounds are
    the tightest rectangle around the cells observed. *)
Definition dims_inv (cells : list (Z * Z)) (d : Dimensions) : Prop :=
  match cells with
  | [] => dim_rowmin d = None /\ dim_rowmax d = None
          /\ dim_colmin d = None /\ dim_colmax d = None
  | _ :: _ => exists r1 r2 c1 c2,
      dim_rowmin d = Some r1 /\ dim_rowmax d = Some r2
      /\ dim_colmin d = Some c1 /\ dim_colmax d = Some c2
      /\ tight cells r1 r2 c1 c2
  end.

Lemma lower_bound_Some (v m : Z) : lower_bound v (Some m) = Some (Z.min v m).
Proof. simpl. case_decide; f_equal; lia. Qed.

Lemma upper_bound_Some (v m : Z) : upper_bound v (Some m) = Some (Z.max v m).
Proof. simpl. case_decide; f_equal; lia. Qed.

Lemma tight_single (r c : Z) : tight [(r, c)] r r c c.
Proof.
  split_and!; [|eexists; left ..].
  intros r' c' ?%list_elem_of_singleton. simplify_eq. lia.
Qed.

(** A new cell widens each bound to the min / max with its coordinate. *)
Lemma tight_snoc (cells : list (Z * Z)) (r1 r2 c1 c2 r c : Z) :
  tight cells r1 r2 c1 c2 ->
  tight (cells ++ [(r, c)]) (Z.min r r1) (Z.max r r2) (Z.min c c1) (Z.max c c2).
Proof.
  intros (Hin & [x1 H1] & [x2 H2] & [y1 H3] & [y2 H4]).
  assert (Hnew : (r, c) ∈ cells ++ [(r, c)]) by (apply elem_of_app; right; left).
  assert (Hold : forall x, x ∈ cells -> x ∈ cells ++ [(r, c)]) by (intros; apply elem_of_app; by left).
  split_and!.
  - intros r' c' [Hr|Hr%list_elem_of_singleton]%elem_of_app; [|simplify_eq; lia].
    specialize (Hin _ _ Hr). lia.
  - destruct (Z.min_spec r r1) as [[_ ->]|[_ ->]]; eauto.
  - destruct (Z.max_spec r r2) as [[_ ->]|[_ ->]]; eauto.
  - destruct (Z.min_spec c c1) as [[_ ->]|[_ ->]]; eauto.
  - destruct (Z.max_spec c c2) as [[_ ->]|[_ ->]]; eauto.
Qed.

Lemma check_dimensions_Ok (row col : Z) (d d' : Dimensions) :
  check_dimensions row col d = Ok d' ->
  in_limits d (row, col)
  /\ xls_rowmax d' = xls_rowmax d /\ xls_colmax d' = xls_colmax d
  /\ dim_rowmin d' = lower_bound row (dim_rowmin d)
  /\ dim_rowmax d' = upper_bound row (dim_rowmax d)
  /\ dim_colmin d' = lower_bound col (dim_colmin d)
  /\ dim_colmax d' = upper_bound col (dim_colmax d).
Proof. unfold check_dimensions. case_decide; [|done]. by intros [= <-]. Qed.

Lemma check_dimensions_inv (seen : list (Z * Z)) (row col : Z) (d d' : Dimensions) :
  dims_inv seen d -> check_dimensions row col d = Ok d' ->
  dims_inv (seen ++ [(row, col)]) d'.
Proof.
  intros Hinv (_ & _ & _ & H1 & H2 & H3 & H4)%check_dimensions_Ok.
  destruct seen as [|x seen]; simpl in Hinv |- *; rewrite H1, H2, H3, H4.
  - destruct Hinv as (-> & -> & -> & ->). eexists _, _, _, _. split_and!; try done.
    apply tight_single.
  - destruct Hinv as (r1 & r2 & c1 & c2 & -> & -> & -> & -> & Ht).
    rewrite lower_bound_Some, upper_bound_Some, lower_bound_Some, upper_bound_Some.
    eexists _, _, _, _. split_and!; try done. by apply (tight_snoc (x :: seen)).
Qed.

Lemma in_limits_same (d d' : Dimensions) (x : Z * Z) :
  xls_rowmax d' = xls_rowmax d -> xls_colmax d' = xls_colmax d ->
  in_limits d' x <-> in_limits d x.
Proof. unfold in_limits. intros -> ->. done. Qed.

(** Observing cells from a state satisfying the invariant for [seen]
    gives the invariant for [seen ++ cells], with the limits unchanged. *)
Lemma observe_cells_inv (cells seen : list (Z * Z)) (d d' : Dimensions) :
  dims_inv seen d -> observe_cells cells d = Ok d' ->
  dims_inv (seen ++ cells) d'
  /\ xls_rowmax d' = xls_rowmax d /\ xls_colmax d' = xls_colmax d
  /\ Forall (in_limits d) cells.
Proof.
  revert seen d. induction cells as [|[r c] cells IH]; intros seen d Hinv Hobs; simpl in Hobs.
  - injection Hobs as <-. by rewrite app_nil_r.
  - destruct (check_dimensions r c d) as [d1|e] eqn:Hc; [|done]. simpl in Hobs.
    pose proof (check_dimensions_inv _ _ _ _ _ Hinv Hc) as Hinv1.
    destruct (check_dimensions_Ok _ _ _ _ Hc) as (Hlim & Hr & Hcl & _).
    destruct (IH _ _ Hinv1 Hobs) as (Hinv' & Hr' & Hc' & Hall).
    rewrite <-app_assoc in Hinv'. split_and!; [done | lia | lia |].
    constructor; [done|]. eapply Forall_impl; [exact Hall|]. intros x. by apply in_limits_same.
Qed.

(** The error path: observation fails exactly when some cell is outside
    the limits. *)
Lemma observe_cells_Err (cells : list (Z * Z)) (d : Dimensions) :
  (exists d', observe_cells cells d = Ok d') <-> Forall (in_limits d) cells.
Proof.
  revert d. induction cells as [|[r c] cells IH]; intros d; simpl; [split; eauto|].
  unfold check_dimensions at 1. case_decide as Hlim; simpl.
  - rewrite IH, Forall_cons. split; [|naive_solver].
    intros Hall. split; [done|]. eapply Forall_impl; [exact Hall|]. intros x. by apply in_limits_same.
  - rewrite Forall_cons. split; [by intros [? ?] | naive_solver].
Qed.

Lemma dims_inv_init : dims_inv [] Dimensions_init.
Proof. done. Qed.
#[export] Hint Resolve dims_inv_init : xlsx.

(** The four bounds of a tight rectangle around cells inside the limits
    are inside the limits. *)
Lemma tight_in_limits (d : Dimensions) (cells : list (Z * Z)) (r1 r2 c1 c2 : Z) :
  tight cells r1 r2 c1 c2 -> Forall (in_limits d) cells ->
  in_limits d (r1, c1) /\ in_limits d (r2, c2).
Proof.
  intros (_ & [x1 H1] & [x2 H2] & [y1 H3] & [y2 H4]) Hall. rewrite Forall_forall in Hall.
  apply Hall in H1, H2, H3, H4. unfold in_limits in *; simpl in *. lia.
Qed.

(** Read a two-corner reference back: the top-left and bottom-right cells. *)
Definition parse_dimension_ref (s : string) : option ((Z * Z) * (Z * Z)) :=
  let '(a, b) := split_colon s in
  tl ← xl_cell_to_rowcol a;
  br ← xl_cell_to_rowcol b;
  Some (tl, br).

(** ** Theorems of the calculator *)

(** C16.  The boundary check: a cell is accepted exactly when its row is in
    [0 .. 1048575] and its column in [0 .. 16383]; otherwise the error is
    [OutOfRange].  Row 1048575 and column 16383 pass; 1048576 and 16384
    fail. *)
Theorem check_dimensions_bounds (row col : Z) :
  ((exists d, check_dimensions row col Dimensions_init = Ok d)
     <-> 0 <= row <= 1048575 /\ 0 <= col <= 16383)
  /\ (check_dimensions row col Dimensions_init = Err OutOfRange
     <-> ~ (0 <= row <= 1048575 /\ 0 <= col <= 16383)).
Proof.
  unfold check_dimensions, in_limits. simpl.
  case_decide as H; (split; split; [intros [? ?] | intros | intros | intros]);
    try (discriminate || eauto || lia).
Qed.

(** C18.  The error path of a sequence of observations: it ends in
    [OutOfRange] exactly when some cell of the sequence is outside the
    sheet's limits (and otherwise succeeds). *)
Theorem observe_cells_error (cells : list (Z * Z)) (d : Dimensions) :
  observe_cells cells d = Err OutOfRange <-> Exists (fun x => ~ in_limits d x) cells.
Proof.
  pose proof (observe_cells_Err cells d) as Hiff.
  destruct (observe_cells cells d) as [d'|[]]; split; try done.
  - intros Hex. exfalso. apply (Exists_not_Forall _ _ Hex). apply Hiff. eauto.
  - intros _. apply not_Forall_Exists; [apply _|]. intros Hall. apply Hiff in Hall as [? ?]. done.
Qed.

(** C17.  After any sequence of observations that succeeds from a fresh
    sheet, the four bounds are the tightest rectangle around the cells
    observed (unset when there are none), and the limits are unchanged. *)
Theorem observe_cells_tight (cells : list (Z * Z)) (d : Dimensions) :
  observe_cells cells Dimensions_init = Ok d ->
  dims_inv cells d /\ xls_rowmax d = 1048576 /\ xls_colmax d = 16384.
Proof.
  intros Hobs. destruct (observe_cells_inv cells [] _ _ dims_inv_init Hobs) as (? & ? & ? & _).
  done.
Qed.

Lemma observe_cells_tight_witness :
  observe_cells [(0, 0); (9, 2)] Dimensions_init
    = Ok (mkDimensions 1048576 16384 32767 (Some 0) (Some 9) (Some 0) (Some 2))
  /\ dims_inv [(0, 0); (9, 2)] (mkDimensions 1048576 16384 32767 (Some 0) (Some 9) (Some 0) (Some 2)).
Proof.
  assert (H : observe_cells [(0, 0); (9, 2)] Dimensions_init
              = Ok (mkDimensions 1048576 16384 32767 (Some 0) (Some 9) (Some 0) (Some 2)))
    by reflexivity.
  split; [exact H | exact (proj1 (observe_cells_tight _ _ H))].
Defined.

(** C19.  The reference string produced after observing cells reads back
    as the two corners of the tightest rectangle around them. *)
Theorem dimension_ref_roundtrip (cells : list (Z * Z)) (d : Dimensions) :
  observe_cells cells Dimensions_init = Ok d -> cells <> [] ->
  exists r1 r2 c1 c2, tight cells r1 r2 c1 c2
    /\ parse_dimension_ref (dimension_ref d) = Some ((r1, c1), (r2, c2)).
Proof.
  intros Hobs Hne. destruct (observe_cells_inv cells [] _ _ dims_inv_init Hobs) as (Hinv & _ & _ & Hall).
  destruct cells as [|x cells]; [done|]. simpl in Hinv.
  destruct Hinv as (r1 & r2 & c1 & c2 & E1 & E2 & E3 & E4 & Ht).
  destruct (tight_in_limits _ _ _ _ _ _ Ht Hall) as [[? ?] [? ?]]; simpl in *.
  exists r1, r2, c1, c2. split; [done|].
  unfold dimension_ref, parse_dimension_ref. rewrite E1, E2, E3, E4.
  change (":" +:+ ?t) with (String ":"%char t).
  rewrite split_colon_app by (apply no_colon_cell; lia).
  by rewrite !xl_cell_roundtrip by lia.
Qed.

Lemma dimension_ref_roundtrip_witness :
  observe_cells [(0, 0); (9, 2)] Dimensions_init
    = Ok (mkDimensions 1048576 16384 32767 (Some 0) (Some 9) (Some 0) (Some 2))
  /\ [(0, 0); (9, 2)] <> []
  /\ exists r1 r2 c1 c2, tight [(0, 0); (9, 2)] r1 r2 c1 c2
      /\ parse_dimension_ref (dimension_ref
           (mkDimensions 1048576 16384 32767 (Some 0) (Some 9) (Some 0) (Some 2)))
         = Some ((r1, c1), (r2, c2)).
Proof.
  assert (H : observe_cells [(0, 0); (9, 2)] Dimensions_init
              = Ok (mkDimensions 1048576 16384 32767 (Some 0) (Some 9) (Some 0) (Some 2)))
    by reflexivity.
  split; [exact H | split; [discriminate | exact (dimension_ref_roundtrip _ _ H ltac:(discriminate))]].
Defined.

(** C20.  Within the sheet's column limit, a column name has one to three
    letters ([A] to [XFD]). *)
Theorem col_name_width (col : Z) :
  0 <= col < xls_colmax Dimensions_init ->
  (1 <= String.length (xl_col_to_name col) <= 3)%nat.
Proof.
  simpl. intros Hc. split.
  - pose proof (col_name_nonempty col ltac:(lia)). destruct (xl_col_to_name col); simpl; [done | lia].
  - apply col_name_loop_length. simpl. lia.
Qed.

Lemma col_name_width_witness :
  0 <= 16383 < xls_colmax Dimensions_init
  /\ (1 <= String.length (xl_col_to_name 16383) <= 3)%nat.
Proof. split; [simpl; lia | apply col_name_width; simpl; lia]. Defined.
