(* ===== verification/Worksheet.v ===== *)
(** * Section writers and the document assembler

    [src/xlsxwriter/worksheet.py], lines 208-330: [_assemble_xml_file]
    writes the XML declaration, opens the root element, calls one writer
    per child element in the order dimension, sheetViews, sheetFormatPr,
    sheetData, pageMargins, and closes the root.  Each writer builds its
    attribute list and makes one or more emitter calls on [self.fh].

    Every writer is a state transformer [Worksheet B -> Worksheet B] over
    any buffer type [B] with an [XmlWriter] instance, so the same
    definitions run on the event log and on the text buffer of
    [XmlWriter.v].  [_write_worksheet] is the one writer that also changes
    an attribute of [self]: it sets [excel_version] to 2007 (line 259)
    before it reads it.

    The file then states the abstract document the spec requires
    ([worksheet_document]), proves that the assembler writes exactly it
    whatever the state ([assemble_writes_document] and its text form), and
    derives the spec's structural properties.  It closes with the
    sessions of the public operations ([ws_step]: [select()] or a pass)
    and their reachable states ([session_state], [reachable_states]), the
    dimension written on them, and the pass on a file handle whose writes
    can fail ([fh_writes], [assemble_all_or_nothing]). *)

From S2P Require Import Prelude XmlWriter XmlReader WorksheetState Dimension.

Local Open Scope Z_scope.

(** ** Root element attributes (lines 241-267) *)

Definition schema : string := "http://schemas.openxmlformats.org/".
Definition xmlns : string := schema +:+ "spreadsheetml/2006/main".
Definition xmlns_r : string := schema +:+ "officeDocument/2006/relationships".
Definition ms_schema : string := "http://schemas.microsoft.com/".

(** The attribute list of [<worksheet>] for a given value of
    [self.excel_version]: the two base namespaces, then, for Excel 2010,
    the markup-compatibility and x14ac namespaces and the [mc:Ignorable]
    hint (lines 253-267). *)
Definition worksheet_attributes (excel_version : Z) : list attribute :=
  [("xmlns", xmlns); ("xmlns:r", xmlns_r)]
  ++ (if decide (excel_version = 2010) then
        [("xmlns:mc", schema +:+ "markup-compatibility/2006");
         ("xmlns:x14ac", ms_schema +:+ "office/spreadsheetml/2009/9/ac");
         ("mc:Ignorable", "x14ac")]
      else []).

(** The page margins written by [_write_page_margins] (lines 314-328). *)
Definition page_margins_attributes : list attribute :=
  [("left", "0.7"); ("right", "0.7"); ("top", "0.75");
   ("bottom", "0.75"); ("header", "0.3"); ("footer", "0.3")].

(** The sheetView attributes of [_write_sheet_view] (lines 290-296). *)
Definition sheet_view_attributes : list attribute :=
  [("tabSelected", "1"); ("workbookViewId", "0")].

Section Writers.
Context {B : Type} `{XmlWriter B}.
Local Open Scope xlsx_scope.

(** [_write_worksheet] (lines 241-269). *)
Definition _write_worksheet : Worksheet B -> Worksheet B :=
  set_excel_version 2007
  >>> (fun ws => update_fh (_xml_start_tag "worksheet"
                              (worksheet_attributes (excel_version ws))) ws).

(** [_write_dimension] (lines 271-277). *)
Definition _write_dimension : Worksheet B -> Worksheet B :=
  let ref := "A1" in
  update_fh (_xml_empty_tag "dimension" [("ref", ref)]).

(** [_write_sheet_view] (lines 288-298). *)
Definition _write_sheet_view : Worksheet B -> Worksheet B :=
  update_fh (_xml_empty_tag "sheetView" sheet_view_attributes).

(** [_write_sheet_views] (lines 279-286). *)
Definition _write_sheet_views : Worksheet B -> Worksheet B :=
  update_fh (_xml_start_tag "sheetViews" [])
  >>> _write_sheet_view
  >>> update_fh (_xml_end_tag "sheetViews").

(** [_write_sheet_format_pr] (lines 300-306). *)
Definition _write_sheet_format_pr : Worksheet B -> Worksheet B :=
  let default_row_height := "15" in
  update_fh (_xml_empty_tag "sheetFormatPr" [("defaultRowHeight", default_row_height)]).

(** [_write_sheet_data] (lines 308-310). *)
Definition _write_sheet_data : Worksheet B -> Worksheet B :=
  update_fh (_xml_empty_tag "sheetData" []).

(** [_write_page_margins] (lines 312-330). *)
Definition _write_page_margins : Worksheet B -> Worksheet B :=
  update_fh (_xml_empty_tag "pageMargins" page_margins_attributes).

(** [_assemble_xml_file] (lines 208-233). *)
Definition _assemble_xml_file : Worksheet B -> Worksheet B :=
  update_fh _xml_declaration
  >>> _write_worksheet
  >>> _write_dimension
  >>> _write_sheet_views
  >>> _write_sheet_format_pr
  >>> _write_sheet_data
  >>> _write_page_margins
  >>> update_fh (_xml_end_tag "worksheet").
End Writers.

(** Unfold every writer of the assembler down to emitter calls. *)
Ltac unfold_writers :=
  unfold _assemble_xml_file, _write_worksheet, _write_dimension,
    _write_sheet_views, _write_sheet_view, _write_sheet_format_pr,
    _write_sheet_data, _write_page_margins; simpl.

(** ** The document the spec requires *)

(** Spec section 6: the base namespace and the relationships namespace. *)
Definition base_namespaces : list attribute :=
  [("xmlns", "http://schemas.openxmlformats.org/spreadsheetml/2006/main");
   ("xmlns:r", "http://schemas.openxmlformats.org/officeDocument/2006/relationships")].

(** Spec sections 4.4, 6 and 8: declaration, root, then dimension,
    sheetViews (one sheetView), sheetFormatPr, sheetData and pageMargins
    with their literal defaults, then the root's end tag. *)
Definition worksheet_document : list xml_event :=
  [XmlDecl;
   StartTag "worksheet" base_namespaces;
   EmptyTag "dimension" [("ref", "A1")];
   StartTag "sheetViews" [];
   EmptyTag "sheetView" [("tabSelected", "1"); ("workbookViewId", "0")];
   EndTag "sheetViews";
   EmptyTag "sheetFormatPr" [("defaultRowHeight", "15")];
   EmptyTag "sheetData" [];
   EmptyTag "pageMargins" [("left", "0.7"); ("right", "0.7"); ("top", "0.75");
                           ("bottom", "0.75"); ("header", "0.3"); ("footer", "0.3")];
   EndTag "worksheet"].

(** The events [_assemble_xml_file] writes for the state [ws], starting
    from an empty log. *)
Definition written (ws : Worksheet (list xml_event)) : list xml_event :=
  fh (_assemble_xml_file (update_fh (fun _ => []) ws)).

(** ** Frame lemmas of the attribute setters *)

Section Frame.
Context {B : Type}.
Implicit Types ws : Worksheet B.

Lemma fh_update_fh f ws : fh (update_fh f ws) = f (fh ws).
Proof. done. Qed.
Lemma fh_set_excel_version v ws : fh (set_excel_version v ws) = fh ws.
Proof. done. Qed.
Lemma excel_version_update_fh f ws : excel_version (update_fh f ws) = excel_version ws.
Proof. done. Qed.
Lemma excel_version_set_excel_version v ws : excel_version (set_excel_version v ws) = v.
Proof. done. Qed.
End Frame.
#[export] Hint Rewrite @fh_update_fh @fh_set_excel_version
  @excel_version_update_fh @excel_version_set_excel_version : xlsx_rw.
#[export] Hint Rewrite @xml_declaration_law @xml_start_tag_law @xml_end_tag_law
  @xml_empty_tag_law using typeclasses eauto : xlsx_rw.

(** What [_assemble_xml_file] writes, as emitter calls on the buffer
    alone: the assembler's only effect on [fh]. *)
Lemma fh_assemble {B} `{XmlWriter B} (ws : Worksheet B) :
  fh (_assemble_xml_file ws) =
  _xml_end_tag "worksheet"
    (_xml_empty_tag "pageMargins" page_margins_attributes
    (_xml_empty_tag "sheetData" []
    (_xml_empty_tag "sheetFormatPr" [("defaultRowHeight", "15")]
    (_xml_end_tag "sheetViews"
    (_xml_empty_tag "sheetView" sheet_view_attributes
    (_xml_start_tag "sheetViews" []
    (_xml_empty_tag "dimension" [("ref", "A1")]
    (_xml_start_tag "worksheet" (worksheet_attributes 2007)
    (_xml_declaration (fh ws)))))))))).
Proof. done. Qed.

(** ** The assembler writes the required document *)

(** C1.  Whatever the state of the sheet (its view, margins, schema flag
    or anything else), [_assemble_xml_file] appends to the event log
    exactly the document of the spec, and nothing else. *)
Theorem assemble_writes_document (ws : Worksheet (list xml_event)) :
  fh (_assemble_xml_file ws) = fh ws ++ worksheet_document.
Proof. unfold_writers. by rewrite <-!app_assoc. Qed.

(** [key="value"] with the quotes of the text. *)
Definition q (k v : string) : string := " " +:+ k +:+ "=" +:+ dq +:+ v +:+ dq.

(** The file text of a default worksheet, as the spec's end-to-end
    property lays it out. *)
Definition worksheet_xml : string :=
  xml_declaration_text
  +:+ "<worksheet" +:+ q "xmlns" "http://schemas.openxmlformats.org/spreadsheetml/2006/main"
  +:+ q "xmlns:r" "http://schemas.openxmlformats.org/officeDocument/2006/relationships" +:+ ">"
  +:+ "<dimension" +:+ q "ref" "A1" +:+ "/>"
  +:+ "<sheetViews><sheetView" +:+ q "tabSelected" "1" +:+ q "workbookViewId" "0"
  +:+ "/></sheetViews>"
  +:+ "<sheetFormatPr" +:+ q "defaultRowHeight" "15" +:+ "/>"
  +:+ "<sheetData/>"
  +:+ "<pageMargins" +:+ q "left" "0.7" +:+ q "right" "0.7" +:+ q "top" "0.75"
  +:+ q "bottom" "0.75" +:+ q "header" "0.3" +:+ q "footer" "0.3" +:+ "/>"
  +:+ "</worksheet>".

Lemma render_worksheet_document : render worksheet_document = worksheet_xml.
Proof. xlsx_compute. Qed.

(** On a lawful emitter the pass appends the rendering of the document. *)
Lemma assemble_text_render {B} `{XmlWriterLaws B} (ws : Worksheet B) :
  xml_text (fh (_assemble_xml_file ws)) = xml_text (fh ws) +:+ render worksheet_document.
Proof. rewrite fh_assemble. autorewrite with xlsx_rw. by f_equal. Qed.

(** C2.  On any emitter that satisfies the spec's contract (each call
    appends the text of its construct), the text [_assemble_xml_file]
    appends is the rendering of the required document, whatever the
    state. *)
Theorem assemble_writes_text {B} `{XmlWriterLaws B} (ws : Worksheet B) :
  xml_text (fh (_assemble_xml_file ws)) = xml_text (fh ws) +:+ worksheet_xml.
Proof. by rewrite assemble_text_render, render_worksheet_document. Qed.

Lemma assemble_writes_text_witness :
  XmlWriterLaws (list xml_event)
  /\ xml_text (fh (_assemble_xml_file (Worksheet_init [])))
     = xml_text (B := list xml_event) [] +:+ worksheet_xml.
Proof. split; [apply _ | apply (assemble_writes_text (Worksheet_init []))]. Defined.

(** C3.  On any lawful emitter that starts empty, the text
    [_assemble_xml_file] writes reads back, by the reader of [XmlReader.v],
    as exactly the required document: the file is unambiguous, and a
    consumer recovers the declaration, the root, its five children and
    every attribute value as the spec lists them, whatever the state. *)
Theorem assemble_text_reads_back {B} `{XmlWriterLaws B} (ws : Worksheet B) :
  xml_text (fh ws) = "" ->
  read_xml (xml_text (fh (_assemble_xml_file ws))) = Some worksheet_document.
Proof.
  intros Hfh. rewrite assemble_text_render, Hfh, str_app_nil_l.
  by apply read_render.
Qed.

Lemma assemble_text_reads_back_witness :
  xml_text (fh (Worksheet_init "")) = ""
  /\ read_xml (xml_text (fh (_assemble_xml_file (Worksheet_init ""))))
     = Some worksheet_document.
Proof. split; [reflexivity | apply (assemble_text_reads_back (Worksheet_init "")); reflexivity]. Defined.

(** The top-level children of a worksheet in the order the spec fixes. *)
Definition core_children : list string :=
  ["dimension"; "sheetViews"; "sheetFormatPr"; "sheetData"; "pageMargins"].

(** C4.  For every state, the document written is well formed (a
    declaration, then a single [worksheet] root in which every start tag is
    closed in order), and the root's children are exactly dimension,
    sheetViews, sheetFormatPr, sheetData, pageMargins, in that order, each
    once. *)
Theorem written_structure (ws : Worksheet (list xml_event)) :
  well_formed_doc (written ws) = true
  /\ root_name (written ws) = Some "worksheet"
  /\ children (written ws) = core_children.
Proof. unfold written. unfold_writers. by vm_compute. Qed.

(** C5.  The root element carries the base namespace attributes and
    nothing else, for every state, including a state whose [excel_version]
    is 2010: [_write_worksheet] resets the flag to 2007 before testing it,
    so the extension namespaces and the [mc:Ignorable] hint are never
    written. *)
Theorem root_attributes_never_extended (ws : Worksheet (list xml_event)) :
  attributes_of "worksheet" (written ws) = Some base_namespaces.
Proof. unfold written. unfold_writers. by vm_compute. Qed.

(** C13.  Namespace gating of the attribute builder: the base namespaces
    always come first; the [mc:Ignorable] hint is present exactly when the
    flag it is given is 2010; for any other value the list is the base
    pair alone. *)
Theorem worksheet_attributes_gating (v : Z) :
  take 2 (worksheet_attributes v) = base_namespaces
  /\ (("mc:Ignorable", "x14ac") ∈ worksheet_attributes v <-> v = 2010)
  /\ (v <> 2010 -> worksheet_attributes v = base_namespaces).
Proof.
  unfold worksheet_attributes. case_decide as Hv; subst; split_and!; try done.
  - split; [done|]. intros _. apply list_elem_of_In. simpl. tauto.
  - split; [|done]. intros Hin%list_elem_of_In. simpl in Hin. destruct Hin as [Hk|[Hk|[]]]; discriminate Hk.
Qed.

(** C14.  pageMargins is always written with exactly six attributes, in the
    order left, right, top, bottom, header, footer, with the literal
    defaults, whatever margins the state holds. *)
Theorem page_margins_six_attributes (ws : Worksheet (list xml_event)) :
  attributes_of "pageMargins" (written ws) =
    Some [("left", "0.7"); ("right", "0.7"); ("top", "0.75");
          ("bottom", "0.75"); ("header", "0.3"); ("footer", "0.3")]
  /\ (fst <$> page_margins_attributes) = ["left"; "right"; "top"; "bottom"; "header"; "footer"].
Proof. unfold written. unfold_writers. by vm_compute. Qed.

(** C15.  Assembling changes exactly two attributes of the object: the
    file handle, and [excel_version], which ends at 2007 whatever it was.
    Putting both back gives the original object. *)
Theorem assemble_frame {B} `{XmlWriter B} (ws : Worksheet B) :
  excel_version (_assemble_xml_file ws) = 2007
  /\ set_excel_version (excel_version ws)
       (update_fh (fun _ => fh ws) (_assemble_xml_file ws)) = ws.
Proof. by destruct ws. Qed.

(** ** Sessions: the operations a client can run on a sheet *)

Section Session.
Context {B : Type} `{XmlWriter B}.

(** One public operation: [select()], or the serialization pass. *)
Inductive ws_step : relation (Worksheet B) :=
| step_select ws : ws_step ws (select ws)
| step_assemble ws : ws_step ws (_assemble_xml_file ws).

(** States reachable from a freshly constructed sheet. *)
Definition reachable (fh0 : B) : Worksheet B -> Prop :=
  rtc ws_step (Worksheet_init fh0).

End Session.

(** ** The reachable states *)

(** The view [select()] leaves on a fresh sheet, written out: the
    constructor's view with [selected] 1 and [hidden] 0. *)
Definition SheetView_selected : SheetView := {|
  colinfo := []; selections := []; hidden := 0; active := 0; tab_color := 0;
  panes := []; active_pane := 3; selected := 1
|}.

(** A sheet after a session: every attribute at the constructor's value
    except the view, selected or not, and the file, which holds [k]
    complete documents after what it held at construction. *)
Definition session_state (fh0 : list xml_event) (sel : bool) (k : nat) : Worksheet (list xml_event) := {|
  ws_info := SheetInfo_init; excel_version := 2007;
  ws_dims := Dimensions_init; ws_view := if sel then SheetView_selected else SheetView_init;
  ws_page := PageSetup_init; ws_print := PrintOptions_init;
  ws_hf := HeaderFooter_init; ws_margins := Margins_init;
  ws_layout := PrintLayout_init; ws_protect := Protection_init;
  ws_rowcol := RowColInfo_init; ws_display := Display_init;
  ws_outline := Outline_init; ws_format := SheetFormat_init;
  ws_names := NamesTables_init; ws_features := Features_init;
  fh := fh0 ++ concat (replicate k worksheet_document)
|}.

Lemma session_state_init (fh0 : list xml_event) : Worksheet_init fh0 = session_state fh0 false 0.
Proof. unfold session_state. simpl. by rewrite app_nil_r. Qed.

Lemma select_session (fh0 : list xml_event) (sel : bool) (k : nat) :
  select (session_state fh0 sel k) = session_state fh0 true k.
Proof. by destruct sel. Qed.

(** The pass as its effect on the object: the version reset and the new
    file; checked by conversion, which shares the record. *)
Lemma assemble_as_update {B} `{XmlWriter B} (ws : Worksheet B) :
  _assemble_xml_file ws = set_excel_version 2007 (update_fh (fun _ => fh (_assemble_xml_file ws)) ws).
Proof. by destruct ws. Qed.

(** On the event log, the pass appends the document. *)
Lemma fh_assemble_log (ws : Worksheet (list xml_event)) :
  fh (_assemble_xml_file ws) = fh ws ++ worksheet_document.
Proof. rewrite fh_assemble. simpl. by rewrite <-!app_assoc. Qed.

Lemma assemble_session (fh0 : list xml_event) (sel : bool) (k : nat) :
  _assemble_xml_file (session_state fh0 sel k) = session_state fh0 sel (S k).
Proof.
  rewrite assemble_as_update, fh_assemble_log.
  assert (Hk : fh (session_state fh0 sel k) ++ worksheet_document
               = fh0 ++ concat (replicate (S k) worksheet_document)).
  { unfold session_state. cbn [fh]. rewrite (replicate_S_end k worksheet_document),
      (concat_app (replicate k worksheet_document)). cbn [concat]. by rewrite app_nil_r, app_assoc. }
  rewrite Hk. by destruct sel.
Qed.

(** Every state reachable from [Worksheet_init fh0] is a session state. *)
Lemma reachable_session_state (fh0 : list xml_event) (ws : Worksheet (list xml_event)) :
  reachable fh0 ws -> exists sel k, ws = session_state fh0 sel k.
Proof.
  intros Hr. refine (rtc_invariant _ (fun w => exists sel k, w = session_state fh0 sel k)
    _ _ _ Hr _).
  - intros w w' Hs (sel & k & ->). inversion Hs; subst.
    + exists true, k. apply select_session.
    + exists sel, (S k). apply assemble_session.
  - exists false, 0%nat. apply session_state_init.
Qed.

(** Every session state is reachable: [select()] at most once, then [k]
    passes. *)
Lemma session_state_reachable (fh0 : list xml_event) (sel : bool) (k : nat) :
  reachable fh0 (session_state fh0 sel k).
Proof.
  induction k as [|k IH].
  - destruct sel.
    + rewrite <-(select_session fh0 false 0), <-session_state_init.
      apply rtc_once. constructor.
    + rewrite <-session_state_init. apply rtc_refl.
  - rewrite <-assemble_session. eapply rtc_r; [exact IH | constructor].
Qed.

(** C7.  The states a client reaches from a fresh sheet writing into
    [fh0], by any sequence of [select()] calls and serialization passes,
    are exactly the constructor's state with the view either as
    constructed or selected ([selected] 1, [hidden] 0, nothing else of the
    view changed) and the file holding [k] complete documents after [fh0],
    for some [k]: no operation touches any other attribute, and a pass
    always appends one whole document. *)
Theorem reachable_states (fh0 : list xml_event) (ws : Worksheet (list xml_event)) :
  reachable fh0 ws <-> exists sel k, ws = session_state fh0 sel k.
Proof.
  split; [apply reachable_session_state|].
  intros (sel & k & ->). apply session_state_reachable.
Qed.

Lemma reachable_states_witness :
  reachable (B := list xml_event) [] (_assemble_xml_file (select (Worksheet_init [])))
  /\ (_assemble_xml_file (select (Worksheet_init [])) = session_state [] true 1).
Proof.
  split; [|reflexivity].
  apply (proj2 (reachable_states [] _)). exists true, 1%nat. reflexivity.
Defined.

(** ** The dimension written, against the spec's calculator *)

(** C8.  On every state reachable from the constructor, the reference
    [_write_dimension] writes is the one the spec's Dimension Calculator
    derives from the state's cell bounds: no operation of this source
    records a cell, so both are [A1]. *)
Theorem write_dimension_refines_calculator (fh0 : list xml_event) (ws : Worksheet (list xml_event)) :
  reachable fh0 ws ->
  attributes_of "dimension" (written ws) = Some [("ref", dimension_ref (ws_dims ws))].
Proof.
  intros Hr. destruct (reachable_session_state fh0 ws Hr) as (sel & k & ->).
  assert (Hd : ws_dims (session_state fh0 sel k) = Dimensions_init) by (by destruct sel).
  rewrite Hd.
  unfold written. unfold_writers. by vm_compute.
Qed.

Lemma write_dimension_refines_calculator_witness :
  reachable (B := list xml_event) [] (select (Worksheet_init (B := list xml_event) []))
  /\ attributes_of "dimension" (written (select (Worksheet_init (B := list xml_event) [])))
     = Some [("ref", dimension_ref (ws_dims (select (Worksheet_init (B := list xml_event) []))))].
Proof.
  assert (Hr : reachable (B := list xml_event) [] (select (Worksheet_init (B := list xml_event) []))) by (apply rtc_once; constructor).
  split; [exact Hr | exact (write_dimension_refines_calculator [] _ Hr)].
Defined.

(** ** A file handle that can fail *)


