(* ===== verification/Assembly.v ===== *)
(** * The assembler as a schema-ordered table of sections

    The spec (sections 4.4 and 9) describes the Document Assembler as a
    table that maps each position of the schema's sequence to an inclusion
    predicate and a section writer; the assembler visits every position
    and the predicate decides whether the writer runs.  This file states
    that design as a specification and relates the source to it:
    - [section] is one row of the table, [run_sections] visits the rows in
      order, [assemble_with tbl] wraps them between the declaration, the
      root written by the source's [_write_worksheet], and the root's end
      tag;
    - [section_contract] is what a section writer promises the assembler:
      it appends exactly one complete element named after its row, with
      plain tag names and attribute keys ([XmlReader.plain_event]), and
      changes nothing else;
    - [table_assembler_sound]: any table of rows that keep the contract
      produces a well-formed document whose root children are the names
      of the rows included, in table order;
    - [assemble_is_core_table]: the source's [_assemble_xml_file] is
      [assemble_with] over the five core rows, each of which keeps the
      contract and is included in every state. *)

From S2P Require Import Prelude XmlWriter XmlReader WorksheetState Worksheet.

Section Table.
Context {B : Type} `{XmlWriter B}.
Local Open Scope xlsx_scope.

(** One position of the schema's sequence. *)
Record section := mkSection {
  sec_name : string;
  sec_included : Worksheet B -> bool;
  sec_write : Worksheet B -> Worksheet B
}.

(** Visit every row; run its writer when its predicate holds of the
    current state. *)
Fixpoint run_sections (tbl : list section) (ws : Worksheet B) : Worksheet B :=
  match tbl with
  | [] => ws
  | s :: tbl' => run_sections tbl' (if sec_included s ws then sec_write s ws else ws)
  end.

(** The names of the rows whose predicate held when they were visited. *)
Fixpoint included_names (tbl : list section) (ws : Worksheet B) : list string :=
  match tbl with
  | [] => []
  | s :: tbl' =>
      if sec_included s ws then sec_name s :: included_names tbl' (sec_write s ws)
      else included_names tbl' ws
  end.

Definition assemble_with (tbl : list section) : Worksheet B -> Worksheet B :=
  update_fh _xml_declaration
  >>> _write_worksheet
  >>> run_sections tbl
  >>> update_fh (_xml_end_tag "worksheet").

(** The predicate of the core profile's rows. *)
Definition always (ws : Worksheet B) : bool := true.

(** The core rows, in the order of the spec's core sequence. *)
Definition core_sections : list section :=
  [mkSection "dimension" always _write_dimension;
   mkSection "sheetViews" always _write_sheet_views;
   mkSection "sheetFormatPr" always _write_sheet_format_pr;
   mkSection "sheetData" always _write_sheet_data;
   mkSection "pageMargins" always _write_page_margins].

End Table.
Arguments section : clear implicits.

(** What a row's writer promises, on the event log: one complete element
    named after the row, with plain tag names and attribute keys, is
    appended, and nothing else changes. *)
Definition section_contract (s : section (list xml_event)) : Prop :=
  forall ws, exists evs, single_element (sec_name s) evs
    /\ forallb plain_event evs = true
    /\ sec_write s ws = update_fh (fun b => b ++ evs) ws.

(** ** Lemmas *)

Lemma run_sections_contract (tbl : list (section (list xml_event))) :
  Forall section_contract tbl ->
  forall ws, exists body, balanced body
    /\ forallb plain_event body = true
    /\ fh (run_sections tbl ws) = fh ws ++ body
    /\ children_at 1 body = included_names tbl ws.
Proof.
  induction 1 as [|s tbl Hs _ IH]; intros ws; simpl.
  - exists []. split_and!; [constructor | done | by rewrite app_nil_r | done].
  - destruct (sec_included s ws).
    + destruct (Hs ws) as (evs & Hel & Hp & Hw). rewrite Hw.
      destruct (IH (update_fh (fun b => b ++ evs) ws)) as (body & Hb & Hpb & Hfh & Hch).
      destruct (single_element_balanced _ _ Hel) as [Hbe Hche].
      exists (evs ++ body). split_and!.
      * by apply balanced_app.
      * by rewrite forallb_app, Hp, Hpb.
      * rewrite Hfh. simpl. by rewrite app_assoc.
      * rewrite children_at_app, balanced_depth, Hche, Hch by done. done.
    + apply IH.
Qed.

(** A row whose writer is one empty element with plain names keeps the
    contract. *)
Lemma empty_tag_row_contract (n : string) (a : list attribute)
    (inc : Worksheet (list xml_event) -> bool) (w : Worksheet (list xml_event) -> Worksheet (list xml_event)) :
  (forall ws, w ws = update_fh (_xml_empty_tag n a) ws) -> plain_event (EmptyTag n a) = true ->
  section_contract (mkSection n inc w).
Proof.
  intros Hw Hp ws. exists [EmptyTag n a].
  split_and!; [left; by eexists | cbn [forallb]; by rewrite Hp | apply Hw].
Qed.

Lemma core_sections_contract : Forall section_contract core_sections.
Proof.
  repeat constructor; try (eapply empty_tag_row_contract; [intros ?; reflexivity | reflexivity]).
  intros ws. eexists. split_and!;
    [..|unfold _write_sheet_views, _write_sheet_view, update_fh; simpl; by rewrite <-!app_assoc].
  - right; eexists _, [_]; split; [repeat constructor | reflexivity].
  - done.
Qed.

(** The document a table of contract-keeping rows writes: the declaration,
    the root of [_write_worksheet], a balanced body of plain events whose
    top-level names are those of the rows included, and the root's end. *)
Lemma assemble_with_document (tbl : list (section (list xml_event)))
    (ws : Worksheet (list xml_event)) :
  Forall section_contract tbl ->
  exists body, balanced body /\ forallb plain_event body = true
    /\ fh (assemble_with tbl (update_fh (fun _ => []) ws))
       = XmlDecl :: StartTag "worksheet" (worksheet_attributes 2007) :: body ++ [EndTag "worksheet"]
    /\ children_at 1 body
       = included_names tbl (_write_worksheet (update_fh _xml_declaration (update_fh (fun _ => []) ws))).
Proof.
  intros Htbl.
  set (ws0 := _write_worksheet (update_fh _xml_declaration (update_fh (fun _ => []) ws))).
  destruct (run_sections_contract tbl Htbl ws0) as (body & Hb & Hp & Hfh & Hch).
  exists body. split_and!; [done | done | | done].
  unfold assemble_with. cbv beta. fold ws0. by rewrite fh_update_fh, Hfh.
Qed.

(** ** Theorems *)

(** C10.  Any table whose rows keep the section contract yields, from any
    state, a well-formed document with a [worksheet] root whose children
    are exactly the names of the rows included, in table order: adding a
    row to the table cannot break the document's structure. *)
Theorem table_assembler_sound (tbl : list (section (list xml_event)))
    (ws : Worksheet (list xml_event)) :
  Forall section_contract tbl ->
  well_formed_doc (fh (assemble_with tbl (update_fh (fun _ => []) ws))) = true
  /\ root_name (fh (assemble_with tbl (update_fh (fun _ => []) ws))) = Some "worksheet"
  /\ children (fh (assemble_with tbl (update_fh (fun _ => []) ws)))
     = included_names tbl (_write_worksheet (update_fh _xml_declaration (update_fh (fun _ => []) ws))).
Proof.
  intros Htbl. destruct (assemble_with_document tbl ws Htbl) as (body & Hb & _ & -> & Hch).
  destruct (document_of_balanced "worksheet" (worksheet_attributes 2007) body Hb) as [Hwf Hc].
  split_and!; [done | done | by rewrite Hc].
Qed.

Lemma table_assembler_sound_witness :
  Forall section_contract core_sections
  /\ children (fh (assemble_with core_sections (update_fh (fun _ => []) (Worksheet_init []))))
     = included_names core_sections
         (_write_worksheet (update_fh _xml_declaration (update_fh (fun _ => []) (Worksheet_init [])))).
Proof.
  split; [exact core_sections_contract |].
  exact (proj2 (proj2 (table_assembler_sound core_sections (Worksheet_init []) core_sections_contract))).
Defined.

(** C9.  The source's [_assemble_xml_file] is the table-driven assembler
    over the five core rows dimension, sheetViews, sheetFormatPr,
    sheetData, pageMargins (on any emitter); each of their writers keeps
    the section contract; and each row is included in every state. *)
Theorem assemble_is_core_table (ws : Worksheet (list xml_event)) :
  (forall B `{XmlWriter B} (w : Worksheet B), _assemble_xml_file w = assemble_with core_sections w)
  /\ Forall section_contract core_sections
  /\ included_names core_sections ws = core_children.
Proof. split_and!; [done | exact core_sections_contract | done]. Qed.

